(** * Dual-CPU custom sensors of turing-smart-screen-python

    Shallow embedding of [library/sensors/sensors_custom.py].

    - Python floats are [pyfloat]: a finite value (an exact rational) or
      [NaN]; the readings the operating system hands to the code are finite.
    - Every sensor class keeps its state in class attributes
      ([Cpu0Percentage.value], [Cpu0Percentage.last_val], ...).  Instances
      carry no state of their own, so the state of a class is one record
      shared by all its instances; [as_numeric] is a function of that record.
    - What the environment answers during one call (psutil, sysfs, the
      LibreHardwareMonitor tree) is an [env] record.
    - Exceptions that can escape a method are an explicit [pyres] result. *)

From Stdlib Require Import QArith Qround Qabs ZArith Lia Lqa Ascii.
From stdpp Require Import base gmap list strings.

Open Scope Q_scope.

(* ------------------------------------------------------------------ *)
(** ** Python values *)

Inductive pyfloat : Type :=
| Fin (q : Q)
| NaN.

Definition is_fin (x : pyfloat) : bool :=
  match x with Fin _ => true | NaN => false end.

(** Python exceptions that can leave a method. *)
Inductive exn : Type :=
| AttributeError
| OSError
| LhmImportException.  (* a non-[ImportError] exception of the LHM import *)

Inductive pyres (A : Type) : Type :=
| Ok (a : A)
| Exc (e : exn).
Arguments Ok {A} a.
Arguments Exc {A} e.

(** [statistics.mean]; every list it is applied to below is non-empty. *)
Definition mean (l : list Q) : Q :=
  foldr Qplus 0 l / inject_Z (Z.of_nat (length l)).

(** Python [max] over a non-empty list ([max(maxes)]). *)
Definition py_max (l : list Q) : Q :=
  match l with
  | [] => 0
  | x :: r => foldl (fun m y => if Qlt_le_dec m y then y else m) x r
  end.

(** [list.append(v)] followed by [list.pop(0)]: the history update. *)
Definition push_pop (l : list pyfloat) (v : pyfloat) : list pyfloat :=
  drop 1 (l ++ [v]).

(** [[math.nan] * 10] *)
Definition nan_history : list pyfloat := repeat NaN 10.

(** Python [str] predicates. *)
Definition str_startswith (name pre : string) : bool := String.prefix pre name.

Definition str_contains (name sub : string) : bool :=
  match String.index 0 sub name with Some _ => true | None => false end.

(** Truthiness of an optional [str] argument ([None] and [""] are falsy). *)
Definition opt_str_truthy (o : option string) : bool :=
  match o with Some s => negb (String.eqb s "") | None => false end.

(* ------------------------------------------------------------------ *)
(** ** Platform and environment *)

(** [platform.system()]: ['Linux'], ['Windows'] or anything else. *)
Inductive os : Type := Linux | Windows | OtherOS.

(** Outcome of reading [/sys/devices/system/cpu/cpuN/topology/physical_package_id]:
    the parsed integer, [FileNotFoundError], [ValueError] (content is not an
    integer), or any other [OSError] (permission denied, is a directory, ...). *)
Inductive topo_read : Type :=
| TopoId (z : Z)
| TopoNotFound
| TopoValueError
| TopoOtherError.

(** One entry of [psutil.cpu_freq(percpu=True)] (MHz); [freq.max] is [0.0]
    when psutil does not know it. *)
Record cpufreq := mk_cpufreq { freq_current : Q; freq_max : Q }.

(** One entry of [psutil.sensors_fans()[chip]]. *)
Record fan_entry := mk_fan { fan_label : string; fan_current : Q }.

(** One entry of [psutil.sensors_temperatures()[chip]]. *)
Record temp_entry := mk_temp { temp_label : string; temp_current : Q }.

(** [psutil.disk_io_counters()] (cumulative bytes). *)
Record disk_counters := mk_disk { read_bytes : Z; write_bytes : Z }.

(** LibreHardwareMonitor tree, as read after [hardware.Update()]. *)
Inductive hardware_type := HwCpu | HwMemory | HwOtherHardware.
Inductive sensor_type := Load | Temperature | Clock | OtherSensor.

Record sensor := mk_sensor {
  SensorType : sensor_type;
  Name : string;
  Value : option Q  (* [None] when the .NET value is null *)
}.

Record hardware := mk_hardware {
  HardwareType : hardware_type;
  Sensors : list sensor
}.

(* ------------------------------------------------------------------ *)
(** ** [_init_lhm]: the module globals of the LibreHardwareMonitor binding *)

(** What [from library.sensors.sensors_librehardwaremonitor import handle,
    Hardware] does when it runs: it succeeds (the handle's hardware tree),
    raises [ImportError], or raises another exception. *)
Inductive import_result :=
| ImportOk (hws : list hardware)
| ImportFailed
| ImportOtherException.

(** The exception [_init_lhm] lets escape. *)
Inductive init_exn := InitOtherException.

(** [_lhm_handle] (its [Hardware] list), [_lhm_Hardware] (set or not) and
    [_lhm_initialized]. *)
Record lhm_globals := mk_lhm {
  _lhm_handle : option (list hardware);
  _lhm_Hardware : bool;
  _lhm_initialized : bool
}.

(** The module's initial values: [None], [None], [False]. *)
Definition lhm_globals_init : lhm_globals := mk_lhm None false false.

(** [_init_lhm()]: the globals afterwards and the exception raised, if any.
    [_lhm_initialized = True] is written before the import is tried, so it
    stays set when the import raises. *)
Definition _init_lhm (sys : os) (imp : import_result) (g : lhm_globals)
    : lhm_globals * option init_exn :=
  if _lhm_initialized g then (g, None)
  else
    let g1 := mk_lhm (_lhm_handle g) (_lhm_Hardware g) true in
    match sys with
    | Windows =>
        match imp with
        | ImportOk hws => (mk_lhm (Some hws) true true, None)
        | ImportFailed => (g1, None)
        | ImportOtherException => (g1, Some InitOtherException)
        end
    | _ => (g1, None)
    end.

(** Calls of [_init_lhm()] in sequence, with the import outcome each call
    would see. *)
Fixpoint run_init_lhm (sys : os) (imps : list import_result) (g : lhm_globals)
    : lhm_globals * list (option init_exn) :=
  match imps with
  | [] => (g, [])
  | imp :: r =>
      let '(g1, ex) := _init_lhm sys imp g in
      let '(g2, exs) := run_init_lhm sys r g1 in
      (g2, ex :: exs)
  end.

(* ------------------------------------------------------------------ *)
(** ** What one call observes

    The LibreHardwareMonitor globals are module globals shared by every
    sensor class, so a call of one class finds them as earlier calls of
    any class left them; [env_lhm_initialized] and [env_lhm] give them as
    the call finds them, and [lhm_globals_of] below rebuilds them. *)
Record env := mk_env {
  env_cpu_percent : list Q;                 (* psutil.cpu_percent(percpu=True) *)
  env_cpu_freq : list cpufreq;              (* psutil.cpu_freq(percpu=True) *)
  env_topology : nat -> topo_read;          (* cpuN/topology/physical_package_id *)
  env_sysfs_max_freq : nat -> nat -> option Z;
    (* cpuN: path 0 = cpuinfo_max_freq, path 1 = scaling_max_freq (kHz);
       [None] when opening or parsing raises *)
  env_cpu_temperatures : gmap Z Q;
    (* what [_linux_get_cpu_temperatures()] returns this call: a dict
       {package: temperature}; it catches every exception itself *)
  env_linux_memory_clock : Z;
    (* what [_linux_get_memory_clock()] returns this call (0 when no
       method worked); it catches every exception itself *)
  env_fans : option (list (string * list fan_entry));
    (* psutil.sensors_fans(); [None] when it raises *)
  env_temps : option (list (string * list temp_entry));
    (* psutil.sensors_temperatures(); [None] when it raises *)
  env_disk : option disk_counters;          (* psutil.disk_io_counters(); None if no disk *)
  env_time : Q;                             (* time.time() *)
  env_lhm : option (list hardware);        (* _lhm_handle.Hardware; None: binding absent *)
  env_lhm_initialized : bool;               (* _lhm_initialized when the call starts *)
  env_lhm_import : import_result
    (* what the import in [_init_lhm()] does if it runs during this call *)
}.

(** Python [dict] lookup with string keys in an association list:
    the last binding wins, as in a dict built by a comprehension. *)
Fixpoint assoc_get {A} (k : string) (l : list (string * A)) : option A :=
  match l with
  | [] => None
  | (k', v) :: r =>
      match assoc_get k r with
      | Some w => Some w
      | None => if String.eqb k k' then Some v else None
      end
  end.

(* ------------------------------------------------------------------ *)
(** ** LibreHardwareMonitor helpers (Windows) *)

Definition is_cpu_hardware (hw : hardware) : bool :=
  match HardwareType hw with HwCpu => true | _ => false end.

(** [_get_cpus_lhm()] over the globals: [_init_lhm()] first, then the CPU
    units of [_lhm_handle.Hardware] ([Update()] refreshes sensor values and
    is not modelled); [inr] is the exception of [_init_lhm]. *)
Definition _get_cpus_lhm_globals (sys : os) (imp : import_result) (g : lhm_globals)
    : lhm_globals * (list hardware + init_exn) :=
  let '(g', ex) := _init_lhm sys imp g in
  match ex with
  | Some x => (g', inr x)
  | None =>
      match _lhm_handle g' with
      | None => (g', inl [])
      | Some hws => (g', inl (List.filter is_cpu_hardware hws))
      end
  end.

(** [_get_cpu_by_index_lhm(index)]: [cpus = _get_cpus_lhm()], then
    [cpus[index] if index < len(cpus) else None]; [inr] is the exception of
    the [_init_lhm()] that [_get_cpus_lhm] runs. *)
Definition _get_cpu_by_index_lhm (sys : os) (imp : import_result) (g : lhm_globals)
    (index : nat) : lhm_globals * (option hardware + init_exn) :=
  let '(g', r) := _get_cpus_lhm_globals sys imp g in
  match r with
  | inl cpus => (g', inl (cpus !! index))
  | inr x => (g', inr x)
  end.

(** The module globals a call finds: [_lhm_initialized] as [e] says; once it
    is set, [_lhm_handle] and [_lhm_Hardware] are both bound ([e]'s hardware
    tree) or both [None]; before, both are [None].  These are the only
    states [_init_lhm] leaves. *)
Definition lhm_globals_of (e : env) : lhm_globals :=
  if env_lhm_initialized e then
    mk_lhm (env_lhm e) (match env_lhm e with Some _ => true | None => false end) true
  else lhm_globals_init.

(** The first two statements of the Windows branch of the CPU metrics,
    [_init_lhm(); cpu = _get_cpu_by_index_lhm(idx)], from the globals the
    call finds: the CPU (or [None]), or the exception that escapes. *)
Definition lhm_cpu (e : env) (idx : nat) : option hardware + init_exn :=
  let '(g1, ex) := _init_lhm Windows (env_lhm_import e) (lhm_globals_of e) in
  match ex with
  | Some x => inr x
  | None => snd (_get_cpu_by_index_lhm Windows (env_lhm_import e) g1 idx)
  end.

Definition sensor_type_eqb (a b : sensor_type) : bool :=
  match a, b with
  | Load, Load | Temperature, Temperature | Clock, Clock
  | OtherSensor, OtherSensor => true
  | _, _ => false
  end.

Definition value_is_not_none (s : sensor) : bool :=
  match Value s with Some _ => true | None => false end.

(** The body of the loop of [_find_sensor_lhm]: is [sensor] returned? *)
Definition sensor_matches (sensor_type : sensor_type)
    (name_contains name_startswith : option string) (s : sensor) : bool :=
  if sensor_type_eqb (SensorType s) sensor_type && value_is_not_none s then
    let name := Name s in
    if opt_str_truthy name_contains
       && negb (str_contains name (default "" name_contains)) then false
    else if opt_str_truthy name_startswith
       && negb (str_startswith name (default "" name_startswith)) then false
    else true
  else false.

Fixpoint find_in_sensors (sensor_type : sensor_type)
    (name_contains name_startswith : option string) (l : list sensor) : option sensor :=
  match l with
  | [] => None
  | s :: r =>
      if sensor_matches sensor_type name_contains name_startswith s then Some s
      else find_in_sensors sensor_type name_contains name_startswith r
  end.

(** [_find_sensor_lhm(hw, sensor_type, name_contains, name_startswith)] *)
Definition _find_sensor_lhm (hw : option hardware) (sensor_type : sensor_type)
    (name_contains name_startswith : option string) : option sensor :=
  match hw with
  | None => None
  | Some h => find_in_sensors sensor_type name_contains name_startswith (Sensors h)
  end.

(** [float(sensor.Value)] for a sensor returned by [_find_sensor_lhm]
    (whose [Value] is never [None]). *)
Definition sensor_float (s : sensor) : Q := default 0 (Value s).

(* ------------------------------------------------------------------ *)
(** ** Linux helpers: physical-package grouping *)

(** One [try] of the topology loop: [int(f.read().strip())], or [0] on
    [FileNotFoundError]/[ValueError]; [None] when another exception escapes
    the inner [try] (it is then caught by the helper's [except Exception]). *)
Definition read_pkg_id (r : topo_read) : option Z :=
  match r with
  | TopoId z => Some z
  | TopoNotFound | TopoValueError => Some 0%Z
  | TopoOtherError => None
  end.

(** [for i in range(len(per_cpu)): pkg_map[i] = ...] *)
Fixpoint read_pkg_map (topo : nat -> topo_read) (cpus : list nat)
    (pkg_map : gmap nat Z) : option (gmap nat Z) :=
  match cpus with
  | [] => Some pkg_map
  | i :: r =>
      match read_pkg_id (topo i) with
      | None => None
      | Some z => read_pkg_map topo r (<[i := z]> pkg_map)
      end
  end.

(** [grouped[pkg_id].append(x)] on a [defaultdict(list)]. *)
Definition group_append (grouped : gmap Z (list Q)) (pkg_id : Z) (x : Q)
    : gmap Z (list Q) :=
  <[pkg_id := default [] (grouped !! pkg_id) ++ [x]]> grouped.

(** [for i, x in enumerate(xs): grouped[pkg_map.get(i, 0)].append(x)] *)
Fixpoint group_by_pkg (pkg_map : gmap nat Z) (i : nat) (xs : list Q)
    (grouped : gmap Z (list Q)) : gmap Z (list Q) :=
  match xs with
  | [] => grouped
  | x :: r =>
      group_by_pkg pkg_map (S i) r (group_append grouped (default 0%Z (pkg_map !! i)) x)
  end.

(** [_linux_get_per_cpu_usage()] *)
Definition _linux_get_per_cpu_usage (e : env) : gmap Z Q :=
  let per_cpu := env_cpu_percent e in
  match per_cpu with
  | [] => ∅
  | _ =>
      match read_pkg_map (env_topology e) (seq 0 (length per_cpu)) ∅ with
      | None => ∅
      | Some pkg_map => mean <$> group_by_pkg pkg_map 0 per_cpu ∅
      end
  end.

(** [_linux_get_per_cpu_frequencies()] *)
Definition _linux_get_per_cpu_frequencies (e : env) : gmap Z Q :=
  let per_cpu := env_cpu_freq e in
  match per_cpu with
  | [] => ∅
  | _ =>
      match read_pkg_map (env_topology e) (seq 0 (length per_cpu)) ∅ with
      | None => ∅
      | Some pkg_map => mean <$> group_by_pkg pkg_map 0 (map freq_current per_cpu) ∅
      end
  end.

(** [max_mhz] of logical CPU [i] in [_linux_get_per_cpu_max_frequencies]:
    [freq.max if freq.max else 0], and when that is [<= 0] the first
    readable of [cpuinfo_max_freq], [scaling_max_freq] divided by 1000. *)
Definition cpu_max_mhz (e : env) (i : nat) (freq : cpufreq) : Q :=
  let max_mhz := if Qeq_bool (freq_max freq) 0 then 0 else freq_max freq in
  if Qle_bool max_mhz 0 then
    match env_sysfs_max_freq e i 0 with
    | Some khz => inject_Z khz / 1000
    | None =>
        match env_sysfs_max_freq e i 1 with
        | Some khz => inject_Z khz / 1000
        | None => max_mhz
        end
    end
  else max_mhz.

(** The grouping loop of [_linux_get_per_cpu_max_frequencies]: only
    positive maxima are appended. *)
Fixpoint group_max_by_pkg (e : env) (pkg_map : gmap nat Z) (i : nat)
    (per_cpu : list cpufreq) (grouped : gmap Z (list Q)) : gmap Z (list Q) :=
  match per_cpu with
  | [] => grouped
  | freq :: r =>
      let max_mhz := cpu_max_mhz e i freq in
      let grouped' :=
        if Qlt_le_dec 0 max_mhz
        then group_append grouped (default 0%Z (pkg_map !! i)) max_mhz
        else grouped in
      group_max_by_pkg e pkg_map (S i) r grouped'
  end.

(** [_linux_get_per_cpu_max_frequencies()] *)
Definition _linux_get_per_cpu_max_frequencies (e : env) : gmap Z Q :=
  let per_cpu := env_cpu_freq e in
  match per_cpu with
  | [] => ∅
  | _ =>
      match read_pkg_map (env_topology e) (seq 0 (length per_cpu)) ∅ with
      | None => ∅
      | Some pkg_map => py_max <$> group_max_by_pkg e pkg_map 0 per_cpu ∅
      end
  end.

(** [_linux_get_fan_speeds()]: [{fan.label: fan.current}] of chip [nct6779]. *)
Definition _linux_get_fan_speeds (e : env) : list (string * Q) :=
  match env_fans e with
  | None => []
  | Some fans =>
      match assoc_get "nct6779" fans with
      | Some entries => map (fun f => (fan_label f, fan_current f)) entries
      | None => []
      end
  end.

(* ------------------------------------------------------------------ *)
(** ** Class state *)

(** Class attributes [value] and [last_val] of a sensor with history. *)
Record hist_state := mk_hist { value : Q; last_val : list pyfloat }.

(** [last_val = [math.nan] * 10; value = 0.0] *)
Definition hist_init : hist_state := mk_hist 0 nan_history.

(** [Cls.value = v; Cls.last_val.append(Cls.value); Cls.last_val.pop(0)] *)
Definition store_value (st : hist_state) (v : Q) : hist_state :=
  mk_hist v (push_pop (last_val st) (Fin v)).

(** [last_values()] of every sensor with history: the class list itself. *)
Definition last_values (st : hist_state) : list pyfloat := last_val st.

(* ------------------------------------------------------------------ *)
(** ** Cpu0Percentage / Cpu1Percentage  ([idx] = 0 / 1)

    [as_numeric] of the CPU metrics and of [MemoryClockSpeed] gives the
    returned value or the exception that escapes, with the class state
    afterwards: on Windows the [_init_lhm()] of the call runs outside any
    [try]. *)

Definition CpuPercentage_as_numeric (sys : os) (idx : nat) (e : env)
    (st : hist_state) : pyres pyfloat * hist_state :=
  match sys with
  | Linux =>
      let usage := _linux_get_per_cpu_usage e in
      match usage !! Z.of_nat idx with
      | Some u => let st' := store_value st u in (Ok (Fin (value st')), st')
      | None => (Ok NaN, st)
      end
  | Windows =>
      match lhm_cpu e idx with
      | inr _ => (Exc LhmImportException, st)
      | inl (Some cpu) =>
          match _find_sensor_lhm (Some cpu) Load None (Some "CPU Total") with
          | Some s => let st' := store_value st (sensor_float s) in (Ok (Fin (value st')), st')
          | None => (Ok NaN, st)
          end
      | inl None => (Ok NaN, st)
      end
  | OtherOS => (Ok NaN, st)
  end.

Definition Cpu0Percentage_as_numeric (sys : os) := CpuPercentage_as_numeric sys 0.
Definition Cpu1Percentage_as_numeric (sys : os) := CpuPercentage_as_numeric sys 1.

(* ------------------------------------------------------------------ *)
(** ** Cpu0Temperature / Cpu1Temperature *)

(** The prefixes tried, in order, by the Windows path. *)
Definition temperature_prefixes : list string :=
  ["Core Average"; "Core Max"; "CPU Package"; "Core"].

(** [for name_prefix in [...]: sensor = _find_sensor_lhm(cpu, Temperature,
    name_startswith=name_prefix); if sensor: ... return] *)
Fixpoint first_prefix_sensor (cpu : hardware) (prefixes : list string)
    : option sensor :=
  match prefixes with
  | [] => None
  | name_prefix :: r =>
      match _find_sensor_lhm (Some cpu) Temperature None (Some name_prefix) with
      | Some s => Some s
      | None => first_prefix_sensor cpu r
      end
  end.

Definition CpuTemperature_as_numeric (sys : os) (idx : nat) (e : env)
    (st : hist_state) : pyres pyfloat * hist_state :=
  match sys with
  | Linux =>
      let temps := env_cpu_temperatures e in
      match temps !! Z.of_nat idx with
      | Some t => let st' := store_value st t in (Ok (Fin (value st')), st')
      | None => (Ok NaN, st)
      end
  | Windows =>
      match lhm_cpu e idx with
      | inr _ => (Exc LhmImportException, st)
      | inl (Some cpu) =>
          match first_prefix_sensor cpu temperature_prefixes with
          | Some s => let st' := store_value st (sensor_float s) in (Ok (Fin (value st')), st')
          | None => (Ok NaN, st)
          end
      | inl None => (Ok NaN, st)
      end
  | OtherOS => (Ok NaN, st)
  end.

Definition Cpu0Temperature_as_numeric (sys : os) := CpuTemperature_as_numeric sys 0.
Definition Cpu1Temperature_as_numeric (sys : os) := CpuTemperature_as_numeric sys 1.

(* ------------------------------------------------------------------ *)
(** ** Cpu0Frequency / Cpu1Frequency *)

Record freq_state := mk_freq {
  f_hist : hist_state;        (* value, last_val *)
  max_freq : Q;               (* cached max frequency in MHz *)
  _max_freq_loaded : bool
}.

Definition freq_init : freq_state := mk_freq hist_init 0 false.

(** The Windows filter: [Clock], ["Core #"] in the name, not ["Effective"],
    value not [None]. *)
Definition is_core_clock (s : sensor) : bool :=
  sensor_type_eqb (SensorType s) Clock
  && str_contains (Name s) "Core #"
  && negb (str_contains (Name s) "Effective")
  && value_is_not_none s.

(** The block [if not Cls._max_freq_loaded: ...] *)
Definition load_max_freq (sys : os) (idx : nat) (e : env) (st : freq_state)
    : freq_state :=
  if _max_freq_loaded st then st
  else
    let st1 := mk_freq (f_hist st) (max_freq st) true in
    match sys with
    | Linux =>
        match _linux_get_per_cpu_max_frequencies e !! Z.of_nat idx with
        | Some m => mk_freq (f_hist st1) m true
        | None => st1
        end
    | _ => st1
    end.

Definition CpuFrequency_as_numeric (sys : os) (idx : nat) (e : env)
    (st0 : freq_state) : pyres pyfloat * freq_state :=
  let st := load_max_freq sys idx e st0 in
  match sys with
  | Linux =>
      let freqs := _linux_get_per_cpu_frequencies e in
      match freqs !! Z.of_nat idx with
      | Some f =>
          let h := store_value (f_hist st) f in
          (Ok (Fin (value h)), mk_freq h (max_freq st) (_max_freq_loaded st))
      | None => (Ok NaN, st)
      end
  | Windows =>
      match lhm_cpu e idx with
      | inr _ => (Exc LhmImportException, st)
      | inl (Some cpu) =>
          let frequencies := map sensor_float (List.filter is_core_clock (Sensors cpu)) in
          match frequencies with
          | [] => (Ok NaN, st)
          | _ =>
              let h := store_value (f_hist st) (mean frequencies) in
              (Ok (Fin (value h)), mk_freq h (max_freq st) (_max_freq_loaded st))
          end
      | inl None => (Ok NaN, st)
      end
  | OtherOS => (Ok NaN, st)
  end.

Definition Cpu0Frequency_as_numeric (sys : os) := CpuFrequency_as_numeric sys 0.
Definition Cpu1Frequency_as_numeric (sys : os) := CpuFrequency_as_numeric sys 1.

(* ------------------------------------------------------------------ *)
(** ** MemoryClockSpeed *)

Record mem_state := mk_mem { m_value : Q; _cached : bool }.

Definition mem_init : mem_state := mk_mem 0 false.

Definition is_memory_hardware (hw : hardware) : bool :=
  match HardwareType hw with HwMemory => true | _ => false end.

Definition is_clock_with_value (s : sensor) : bool :=
  sensor_type_eqb (SensorType s) Clock && value_is_not_none s.

(** The Windows loop: the first [Clock] sensor with a value on a [Memory]
    hardware unit. *)
Fixpoint first_memory_clock (hws : list hardware) : option sensor :=
  match hws with
  | [] => None
  | hw :: r =>
      if is_memory_hardware hw then
        match List.find is_clock_with_value (Sensors hw) with
        | Some s => Some s
        | None => first_memory_clock r
        end
      else first_memory_clock r
  end.

Definition MemoryClockSpeed_as_numeric (sys : os) (e : env) (st : mem_state)
    : pyres pyfloat * mem_state :=
  if _cached st && negb (Qle_bool (m_value st) 0) then (Ok (Fin (m_value st)), st)
  else
    match sys with
    | Linux =>
        let speed := env_linux_memory_clock e in
        if (0 <? speed)%Z then
          let st' := mk_mem (inject_Z speed) true in (Ok (Fin (m_value st')), st')
        else (Ok NaN, st)
    | Windows =>
        let '(g1, ex) := _init_lhm Windows (env_lhm_import e) (lhm_globals_of e) in
        match ex with
        | Some _ => (Exc LhmImportException, st)
        | None =>
            match _lhm_handle g1 with
            | Some hws =>
                match first_memory_clock hws with
                | Some s => let st' := mk_mem (sensor_float s) true in (Ok (Fin (m_value st')), st')
                | None => (Ok NaN, st)
                end
            | None => (Ok NaN, st)
            end
        end
    | OtherOS => (Ok NaN, st)
    end.

(* ------------------------------------------------------------------ *)
(** ** DiskReadSpeed / DiskWriteSpeed *)

Record disk_state := mk_dstate {
  d_hist : hist_state;          (* value, last_val *)
  _prev_bytes : option Z;
  _prev_time : option Q
}.

Definition disk_init : disk_state := mk_dstate hist_init None None.

(** [counters.read_bytes] / [counters.write_bytes]: an [AttributeError]
    when [psutil.disk_io_counters()] returned [None]. *)
Definition get_bytes (field : disk_counters -> Z) (counters : option disk_counters)
    : pyres Z :=
  match counters with
  | Some c => Ok (field c)
  | None => Exc AttributeError
  end.

(** Shared body of [DiskReadSpeed.as_numeric] ([field] = [read_bytes]) and
    [DiskWriteSpeed.as_numeric] ([field] = [write_bytes]). *)
Definition DiskSpeed_as_numeric (field : disk_counters -> Z) (e : env)
    (st : disk_state) : pyres (pyfloat * disk_state) :=
  let counters := env_disk e in
  let now := env_time e in
  let rate :=
    match _prev_bytes st, _prev_time st with
    | Some pb, Some pt =>
        let dt := now - pt in
        if Qlt_le_dec 0 dt then
          match get_bytes field counters with
          | Ok b => Ok (Some (inject_Z (b - pb) / dt / inject_Z (1024 * 1024)))
          | Exc x => Exc x
          end
        else Ok None
    | _, _ => Ok None
    end in
  match rate with
  | Exc x => Exc x
  | Ok r =>
      let v := match r with Some v => v | None => value (d_hist st) end in
      match get_bytes field counters with
      | Exc x => Exc x
      | Ok b =>
          let h := store_value (d_hist st) v in
          Ok (Fin (value h), mk_dstate h (Some b) (Some now))
      end
  end.

Definition DiskReadSpeed_as_numeric := DiskSpeed_as_numeric read_bytes.
Definition DiskWriteSpeed_as_numeric := DiskSpeed_as_numeric write_bytes.

(* ------------------------------------------------------------------ *)
(** ** Cpu0FanSpeed / Cpu1FanSpeed  ([label] = 'fan1' / 'fan2') *)

Definition FanSpeed_as_numeric (label : string) (sys : os) (e : env)
    (st : hist_state) : pyfloat * hist_state :=
  let v :=
    match sys with
    | Linux =>
        let fans := _linux_get_fan_speeds e in
        default 0 (assoc_get label fans)          (* fans.get(label, 0) *)
    | _ => value st
    end in
  let st' := store_value st v in
  (Fin (value st'), st').

Definition Cpu0FanSpeed_as_numeric := FanSpeed_as_numeric "fan1".
Definition Cpu1FanSpeed_as_numeric := FanSpeed_as_numeric "fan2".

(* ------------------------------------------------------------------ *)
(** ** NvmeTemperature *)

Definition NvmeTemperature_as_numeric (sys : os) (e : env) (st : hist_state)
    : pyfloat * hist_state :=
  let v :=
    match sys with
    | Linux =>
        match env_temps e with
        | Some temps =>
            match assoc_get "nvme" temps with
            | Some entries =>
                match List.find (fun t => String.eqb (temp_label t) "Composite") entries with
                | Some t => temp_current t
                | None => value st
                end
            | None => value st
            end
        | None => value st                      (* except Exception: pass *)
        end
    | _ => value st
    end in
  let st' := store_value st v in
  (Fin (value st'), st').

(* ------------------------------------------------------------------ *)
(** ** [as_string] of Cpu0Percentage: [f'{value:.0f}%'] *)

(** Python's [.0f] rounds to the nearest integer, ties to even. *)
Definition round_half_even (q : Q) : Z :=
  let f := Qfloor q in
  match Qcompare (q - inject_Z f) (1 # 2) with
  | Lt => f
  | Gt => (f + 1)%Z
  | Eq => if Z.even f then f else (f + 1)%Z
  end.

Fixpoint digits_aux (fuel : nat) (n : Z) (acc : string) : string :=
  match fuel with
  | O => acc
  | S fuel' =>
      let acc' := String (Ascii.ascii_of_nat (48 + Z.to_nat (n mod 10))) acc in
      if (n <? 10)%Z then acc' else digits_aux fuel' (n / 10) acc'
  end.

(** Decimal digits of a non-negative integer. *)
Definition decimal (n : Z) : string :=
  digits_aux (S (Z.to_nat (Z.log2 n))) n "".

Definition format_0f (q : Q) : string :=
  if Qle_bool 0 q then decimal (round_half_even q)
  else "-" ++ decimal (round_half_even (- q)).

Definition CpuPercentage_as_string (st : hist_state) : string :=
  format_0f (value st) ++ "%".

Definition Cpu0Percentage_as_string := CpuPercentage_as_string.

(* ------------------------------------------------------------------ *)
(** ** Calls in sequence *)

(** Successive calls of [numeric()], one environment (or instance) each:
    the results and the final class state. *)
Fixpoint run {I R S : Type} (step : I -> S -> R * S) (es : list I) (s : S)
    : list R * S :=
  match es with
  | [] => ([], s)
  | e :: r =>
      let '(x, s1) := step e s in
      let '(xs, s2) := run step r s1 in
      (x :: xs, s2)
  end.

(** Constructing an instance ([Cls()]) runs no [__init__]: the class
    attributes, which [last_values()] returns, are left as they are. *)
Definition construct_instance (st : hist_state) : hist_state := st.

(** The last [n] elements of a list. *)
Definition lastn {A} (n : nat) (l : list A) : list A := drop (length l - n) l.






(** A live temperature sensor whose name starts with [p]. *)
Definition live_temperature_with_prefix (p : string) (s : sensor) : Prop :=
  SensorType s = Temperature /\ Value s <> None /\ String.prefix p (Name s) = true.

(** The value a call's result adds to the history, if any: a finite
    float returned ([produced]), or the float itself ([produced_float]). *)
Definition produced (r : pyres pyfloat) : list pyfloat :=
  match r with Ok (Fin q) => [Fin q] | _ => [] end.

Definition produced_float (r : pyfloat) : list pyfloat :=
  match r with Fin q => [Fin q] | NaN => [] end.

(** How one call may touch a history: leave it when it adds nothing, or
    push the value it adds. *)
Definition history_step {R : Type} (out : R -> list pyfloat)
    (hist_before hist_after : list pyfloat) (r : R) : Prop :=
  (out r = [] /\ hist_after = hist_before)
  \/ (exists q, out r = [Fin q] /\ hist_after = push_pop hist_before (Fin q)).

(** One [DiskReadSpeed]/[DiskWriteSpeed] call as its caller sees it: the
    value or the exception, and the class state afterwards; the only
    exception, at [counters.read_bytes] / [counters.write_bytes], is raised
    before any class attribute is written. *)
Definition DiskSpeed_call (field : disk_counters -> Z) (e : env) (st : disk_state)
    : pyres pyfloat * disk_state :=
  match DiskSpeed_as_numeric field e st with
  | Ok (x, st') => (Ok x, st')
  | Exc x => (Exc x, st)
  end.

(* ------------------------------------------------------------------ *)
(** ** Per-package readings, CPU by CPU *)

(** The package a logical CPU is counted in: its topology id, or 0 when
    the file is missing or malformed. *)
Definition pkg_of (topo : nat -> topo_read) (i : nat) : Z :=
  match topo i with TopoId z => z | _ => 0%Z end.

(** The readings, in CPU order, of the CPUs [i, i+1, ...] counted in
    package [p]. *)
Fixpoint pkg_members (topo : nat -> topo_read) (p : Z) (i : nat) (xs : list Q)
    : list Q :=
  match xs with
  | [] => []
  | x :: r => (if Z.eq_dec (pkg_of topo i) p then [x] else []) ++ pkg_members topo p (S i) r
  end.

(** The positive maxima, in CPU order, of the CPUs counted in package [p]. *)
Fixpoint pkg_max_members (e : env) (p : Z) (i : nat) (fs : list cpufreq) : list Q :=
  match fs with
  | [] => []
  | f :: r =>
      (if Z.eq_dec (pkg_of (env_topology e) i) p
       then (if Qlt_le_dec 0 (cpu_max_mhz e i f) then [cpu_max_mhz e i f] else [])
       else [])
      ++ pkg_max_members e p (S i) r
  end.

(** No topology file of the first [n] CPUs raises anything but
    [FileNotFoundError] or [ValueError]. *)
Definition topology_readable (topo : nat -> topo_read) (n : nat) : Prop :=
  forall i, (i < n)%nat -> topo i <> TopoOtherError.

(** [mean] of a possibly empty group, [None] for no member. *)
Definition group_value (f : list Q -> Q) (l : list Q) : option Q :=
  match l with [] => None | _ => Some (f l) end.

(* ------------------------------------------------------------------ *)
(** ** [as_string] with a width and a precision: [f'{x:>W.Pf}'] *)

(** [s] right-aligned in a field of [w] characters, filled with [c]. *)
Fixpoint fill (c : Ascii.ascii) (n : nat) : string :=
  match n with O => "" | S n' => String c (fill c n') end.

Definition pad_left (c : Ascii.ascii) (w : nat) (s : string) : string :=
  (fill c (w - String.length s) ++ s)%string.

(** Python's [format(x, '>W.Pf')] of a finite float [x]: the exact value
    rounded to [P] decimals, ties to even; [-] for a negative [x] (also
    when it rounds to zero); right-aligned in [W] characters.  [W = 0]
    is the spec without a width. *)
Definition format_fixed (width prec : nat) (x : Q) : string :=
  let n := round_half_even (Qabs x * inject_Z (10 ^ Z.of_nat prec)) in
  let int_part := decimal (n / 10 ^ Z.of_nat prec) in
  let frac_part :=
    match prec with
    | O => ""
    | _ => ("." ++ pad_left "0"%char prec (decimal (n mod 10 ^ Z.of_nat prec)))%string
    end in
  let sign := if Qle_bool 0 x then "" else "-" in
  pad_left " "%char width (sign ++ int_part ++ frac_part)%string.

(** [DiskReadSpeed.as_string] / [DiskWriteSpeed.as_string]. *)
Definition DiskSpeed_as_string (st : disk_state) : string :=
  let v := value (d_hist st) in
  if Qle_bool 1000 v then format_fixed 5 1 (v / 1024) ++ " GB/s"
  else format_fixed 5 1 v ++ " MB/s".

Definition DiskReadSpeed_as_string := DiskSpeed_as_string.
Definition DiskWriteSpeed_as_string := DiskSpeed_as_string.

(** [MemoryClockSpeed.as_string]. *)
Definition MemoryClockSpeed_as_string (st : mem_state) : string :=
  if Qlt_le_dec 0 (m_value st) then format_fixed 4 0 (m_value st) ++ " MHz"
  else "N/A".

(** [Cpu0Frequency.as_string] / [Cpu1Frequency.as_string]. *)
Definition CpuFrequency_as_string (st : freq_state) : string :=
  let current_ghz := value (f_hist st) / 1000 in
  if Qlt_le_dec 0 (max_freq st) then
    let max_ghz := max_freq st / 1000 in
    format_fixed 0 2 current_ghz ++ "/" ++ format_fixed 0 2 max_ghz ++ " GHz"
  else format_fixed 4 2 current_ghz ++ " GHz".

Definition Cpu0Frequency_as_string := CpuFrequency_as_string.
Definition Cpu1Frequency_as_string := CpuFrequency_as_string.

(* ------------------------------------------------------------------ *)
(** ** [_linux_get_cpu_temperatures]

    The dict [env_cpu_temperatures] that [CpuTemperature_as_numeric] reads
    is the result of this helper; here it is computed from the
    [psutil.sensors_temperatures()] answer [env_temps] (labels are ASCII
    strings). *)

(** [str.lower()] on an ASCII string. *)
Definition ascii_lower (c : ascii) : ascii :=
  let n := nat_of_ascii c in
  if (65 <=? n)%nat && (n <=? 90)%nat then ascii_of_nat (n + 32) else c.

Fixpoint str_lower (s : string) : string :=
  match s with
  | EmptyString => EmptyString
  | String c r => String (ascii_lower c) (str_lower r)
  end.

(** The ASCII characters [str.isspace()] accepts: [\t \n \x0b \x0c \r],
    [\x1c]-[\x1f] and the space. *)
Definition is_py_space (c : ascii) : bool :=
  let n := nat_of_ascii c in
  ((9 <=? n) && (n <=? 13))%nat || ((28 <=? n) && (n <=? 32))%nat.

(** [str.split()] without argument: the maximal runs of non-space
    characters; [cur] is the word being read, reversed. *)
Fixpoint split_ws_aux (s : string) (cur : list ascii) : list string :=
  match s with
  | EmptyString =>
      match cur with [] => [] | _ => [String.string_of_list_ascii (rev cur)] end
  | String c r =>
      if is_py_space c then
        match cur with
        | [] => split_ws_aux r []
        | _ => String.string_of_list_ascii (rev cur) :: split_ws_aux r []
        end
      else split_ws_aux r (c :: cur)
  end.

Definition split_ws (s : string) : list string := split_ws_aux s [].

Definition is_ascii_digit (c : ascii) : bool :=
  let n := nat_of_ascii c in ((48 <=? n) && (n <=? 57))%nat.

(** The digits of [int(s)]: ASCII digits with single underscores between
    them; [prev_us]: the last character read was [_]. *)
Fixpoint parse_digits (s : string) (acc : Z) (prev_us seen : bool) : option Z :=
  match s with
  | EmptyString => if seen && negb prev_us then Some acc else None
  | String c r =>
      if is_ascii_digit c then
        parse_digits r (acc * 10 + Z.of_nat (nat_of_ascii c - 48))%Z false true
      else if Ascii.eqb c "_" && seen && negb prev_us then parse_digits r acc true true
      else None
  end.

(** [int(s)] of a string without white space: [None] is [ValueError]. *)
Definition py_int (s : string) : option Z :=
  match s with
  | String c r =>
      if Ascii.eqb c "-" then Z.opp <$> parse_digits r 0 false false
      else if Ascii.eqb c "+" then parse_digits r 0 false false
      else parse_digits s 0 false false
  | EmptyString => None
  end.

(** [not temps] *)
Definition dict_empty (t : gmap Z Q) : bool :=
  match map_to_list t with [] => true | _ => false end.

(** The package id a coretemp entry gives: [label = entry.label.lower()];
    when ['package' in label], [int(label.split()[-1])], where [IndexError]
    and [ValueError] give nothing. *)
Definition coretemp_package_id (entry : temp_entry) : option Z :=
  let label := str_lower (temp_label entry) in
  if str_contains label "package" then
    match last (split_ws label) with
    | Some w => py_int w
    | None => None
    end
  else None.

(** The first loop over [sensor_temps['coretemp']]. *)
Definition coretemp_packages (entries : list temp_entry) (temps : gmap Z Q) : gmap Z Q :=
  fold_left (fun t entry =>
    match coretemp_package_id entry with
    | Some pkg_id => <[pkg_id := temp_current entry]> t
    | None => t
    end) entries temps.

(** The second loop: [temps.setdefault(0, entry.current)] for every entry
    whose label starts with ['Core']. *)
Definition coretemp_core_fallback (entries : list temp_entry) (temps : gmap Z Q) : gmap Z Q :=
  fold_left (fun t entry =>
    if str_startswith (temp_label entry) "Core" then
      match t !! 0%Z with Some _ => t | None => <[0%Z := temp_current entry]> t end
    else t) entries temps.

(** [for i, entry in enumerate(sensor_temps[key]): temps[i] = entry.current] *)
Fixpoint enumerate_into (i : nat) (entries : list temp_entry) (temps : gmap Z Q) : gmap Z Q :=
  match entries with
  | [] => temps
  | entry :: r => enumerate_into (S i) r (<[Z.of_nat i := temp_current entry]> temps)
  end.

(** [for key in ['k10temp', 'zenpower']: if key in sensor_temps and not temps: ...] *)
Definition amd_fallback (sensor_temps : list (string * list temp_entry))
    (keys : list string) (temps : gmap Z Q) : gmap Z Q :=
  fold_left (fun t key =>
    match assoc_get key sensor_temps with
    | Some entries => if dict_empty t then enumerate_into 0 entries t else t
    | None => t
    end) keys temps.

(** [_linux_get_cpu_temperatures()]; a failing [sensors_temperatures()]
    ([env_temps = None]) is caught by [except Exception] and gives [{}]. *)
Definition _linux_get_cpu_temperatures (e : env) : gmap Z Q :=
  match env_temps e with
  | None => ∅
  | Some sensor_temps =>
      let temps :=
        match assoc_get "coretemp" sensor_temps with
        | Some entries =>
            let t := coretemp_packages entries ∅ in
            if dict_empty t then coretemp_core_fallback entries t else t
        | None => ∅
        end in
      amd_fallback sensor_temps ["k10temp"; "zenpower"] temps
  end.

(* ------------------------------------------------------------------ *)
(** ** [_linux_get_memory_clock]

    The value [env_linux_memory_clock] that [MemoryClockSpeed_as_numeric]
    reads is the result of this helper; here it is computed from the
    outputs of the three commands it runs (ASCII text), [None] when
    [subprocess.check_output] raises (command missing, non-zero exit,
    timeout). *)
Record mem_commands := mk_mem_commands {
  dmidecode_out : option string;          (* dmidecode -t memory *)
  sudo_dmidecode_out : option string;     (* sudo -n dmidecode -t memory *)
  decode_dimms_out : option string        (* decode-dimms *)
}.

(** The ASCII line boundaries of [str.splitlines()]: [\n], [\r], [\x0b],
    [\x0c], [\x1c], [\x1d], [\x1e]; [\r\n] is one boundary. *)
Definition is_line_break (c : ascii) : bool :=
  let n := nat_of_ascii c in
  ((10 <=? n) && (n <=? 13))%nat || ((28 <=? n) && (n <=? 30))%nat.

Fixpoint splitlines_aux (s : string) (cur : list ascii) : list string :=
  match s with
  | EmptyString =>
      match cur with [] => [] | _ => [String.string_of_list_ascii (rev cur)] end
  | String c r =>
      if is_line_break c then
        let line := String.string_of_list_ascii (rev cur) in
        if Ascii.eqb c (ascii_of_nat 13) then
          match r with
          | String c' r' =>
              if Ascii.eqb c' (ascii_of_nat 10) then line :: splitlines_aux r' []
              else line :: splitlines_aux r []
          | EmptyString => [line]
          end
        else line :: splitlines_aux r []
      else splitlines_aux r (c :: cur)
  end.

Definition splitlines (s : string) : list string := splitlines_aux s [].

Fixpoint lstrip (s : string) : string :=
  match s with
  | String c r => if is_py_space c then lstrip r else s
  | EmptyString => EmptyString
  end.

Definition rstrip (s : string) : string :=
  String.string_of_list_ascii (rev (String.list_ascii_of_string (lstrip
    (String.string_of_list_ascii (rev (String.list_ascii_of_string s)))))).

(** [str.strip()] *)
Definition strip (s : string) : string := rstrip (lstrip s).

(** [str.split(sep)] for a one-character separator. *)
Fixpoint split_char_aux (sep : ascii) (s : string) (cur : list ascii) : list string :=
  match s with
  | EmptyString => [String.string_of_list_ascii (rev cur)]
  | String c r =>
      if Ascii.eqb c sep then String.string_of_list_ascii (rev cur) :: split_char_aux sep r []
      else split_char_aux sep r (c :: cur)
  end.

Definition split_char (sep : ascii) (s : string) : list string := split_char_aux sep s [].

(** [str.isdigit()] on an ASCII string: non-empty, all digits. *)
Definition str_isdigit (s : string) : bool :=
  match s with
  | EmptyString => false
  | _ => forallb is_ascii_digit (String.list_ascii_of_string s)
  end.

(** [int(s)] of a string of digits. *)
Definition digits_value (s : string) : Z :=
  fold_left (fun acc c => acc * 10 + Z.of_nat (nat_of_ascii c - 48))%Z
    (String.list_ascii_of_string s) 0%Z.

(** The loop of methods 1 and 2 over the lines: the speeds in order, or
    [None] when [line.split(':')[1].strip().split()[0]] raises. *)
Fixpoint dmidecode_speeds (lines : list string) : option (list Z) :=
  match lines with
  | [] => Some []
  | line0 :: r =>
      let line := strip line0 in
      if str_startswith line "Configured Memory Speed:"
         || str_startswith line "Configured Clock Speed:" then
        match nth_error (split_char ":" line) 1 with
        | None => None
        | Some part =>
            match split_ws (strip part) with
            | [] => None
            | v :: _ =>
                let here :=
                  if str_isdigit v && (0 <? digits_value v)%Z then [digits_value v] else [] in
                (fun rest => here ++ rest) <$> dmidecode_speeds r
            end
        end
      else dmidecode_speeds r
  end.

(** [max(speeds)] over a list of ints. *)
Definition z_max (l : list Z) : Z :=
  match l with [] => 0%Z | x :: r => fold_left Z.max r x end.

(** Methods 1 and 2: [Some speed] is [return max(speeds)]; [None] falls
    through to the next method (no speed, or an exception). *)
Definition dmidecode_method (out : option string) : option Z :=
  match out with
  | None => None
  | Some o =>
      match dmidecode_speeds (splitlines o) with
      | Some (s :: ss) => Some (z_max (s :: ss))
      | _ => None
      end
  end.

(** Method 3: the first token [p] with [p.isdigit() and int(p) > 100] of
    the first line containing ['Maximum module speed'] that has one. *)
Fixpoint decode_dimms_lines (lines : list string) : option Z :=
  match lines with
  | [] => None
  | line :: r =>
      let found :=
        if str_contains line "Maximum module speed" then
          List.find (fun p => str_isdigit p && (100 <? digits_value p)%Z) (split_ws line)
        else None in
      match found with
      | Some p => Some (digits_value p)
      | None => decode_dimms_lines r
      end
  end.

Definition decode_dimms_method (out : option string) : option Z :=
  match out with None => None | Some o => decode_dimms_lines (splitlines o) end.

(** [_linux_get_memory_clock()] *)
Definition _linux_get_memory_clock (cmds : mem_commands) : Z :=
  match dmidecode_method (dmidecode_out cmds) with
  | Some v => v
  | None =>
      match dmidecode_method (sudo_dmidecode_out cmds) with
      | Some v => v
      | None =>
          match decode_dimms_method (decode_dimms_out cmds) with
          | Some v => v
          | None => 0%Z
          end
      end
  end.

(* ------------------------------------------------------------------ *)
(** ** ExampleCustomNumericData

    [as_numeric] writes [self.value], an attribute of the instance, and
    appends to [self.last_val], which resolves to the class list shared by
    all instances.  The class defines no [value]: an instance whose
    [as_numeric] has not run has no such attribute. *)
Record example_instance := mk_example { ex_value : option Q }.

(** A new instance ([ExampleCustomNumericData()]). *)
Definition example_new : example_instance := mk_example None.

(** [as_numeric()]: the returned value, the instance and the class list. *)
Definition ExampleCustomNumericData_as_numeric (inst : example_instance)
    (last_val : list pyfloat) : pyfloat * example_instance * list pyfloat :=
  let v := 75.845 in
  (Fin v, mk_example (Some v), push_pop last_val (Fin v)).

(** [as_string()]: [f'{self.value:>5.1f}%'], [AttributeError] without
    [self.value]. *)
Definition ExampleCustomNumericData_as_string (inst : example_instance) : pyres string :=
  match ex_value inst with
  | Some v => Ok (format_fixed 5 1 v ++ "%")%string
  | None => Exc AttributeError
  end.

(** One [as_numeric()] call on the instance [inst]: the returned value and
    the class list [last_val] afterwards. *)
Definition ExampleCustomNumericData_call (inst : example_instance)
    (last_val : list pyfloat) : pyfloat * list pyfloat :=
  let '(v, _, l) := ExampleCustomNumericData_as_numeric inst last_val in (v, l).

(* ------------------------------------------------------------------ *)
(** Only [sudo -n dmidecode] works, and reports two modules. *)
Definition mem_commands_sudo_only : mem_commands :=
  mk_mem_commands None
    (Some "Memory Device
	Configured Memory Speed: 2666 MT/s
Memory Device
	Configured Memory Speed: 3200 MT/s
") None.

(** * Proofs *)

Lemma push_pop_lastn (H : list pyfloat) (x : pyfloat) :
  (10 <= length H)%nat -> push_pop (lastn 10 H) x = lastn 10 (H ++ [x]).
Proof.
  intros Hlen. unfold push_pop, lastn.
  rewrite <- drop_app_le by lia. rewrite drop_drop, length_app. simpl.
  f_equal. lia.
Qed.

Lemma nan_history_lastn : nan_history = lastn 10 nan_history.
Proof. reflexivity. Qed.

Lemma length_lastn {A} (l : list A) : (10 <= length l)%nat -> length (lastn 10 l) = 10%nat.
Proof. intros. unfold lastn. rewrite length_drop. lia. Qed.

Section History.
Context {I R S : Type} (hist : S -> list pyfloat) (out : R -> list pyfloat)
  (step : I -> S -> R * S).
Hypothesis step_ok :
  forall e s, history_step out (hist s) (hist (snd (step e s))) (fst (step e s)).

Lemma run_history (es : list I) (s : S) (H : list pyfloat) :
  (10 <= length H)%nat -> hist s = lastn 10 H ->
  hist (snd (run step es s)) = lastn 10 (H ++ flat_map out (fst (run step es s))).
Proof.
  revert s H. induction es as [|e es IH]; intros s H Hlen Hs; simpl.
  - by rewrite app_nil_r.
  - pose proof (step_ok e s) as Hst.
    destruct (step e s) as [x s1] eqn:Hstep; simpl in Hst.
    destruct (run step es s1) as [xs s2] eqn:Hrun. simpl.
    destruct Hst as [[Hx Hh] | [q [Hx Hh]]]; simpl; rewrite Hx.
    + specialize (IH s1 H Hlen). rewrite Hrun in IH. simpl in IH.
      apply IH. by rewrite Hh.
    + specialize (IH s1 (H ++ [Fin q])). rewrite Hrun in IH. simpl in IH.
      rewrite <- app_assoc in IH. apply IH.
      * rewrite length_app. simpl. lia.
      * rewrite Hh, Hs. by apply push_pop_lastn.
Qed.

Lemma hist_from_init (es : list I) (s : S) :
  hist s = nan_history ->
  hist (snd (run step es s)) = lastn 10 (nan_history ++ flat_map out (fst (run step es s)))
  /\ length (hist (snd (run step es s))) = 10%nat.
Proof.
  intros Hs.
  assert (Hh : hist (snd (run step es s))
               = lastn 10 (nan_history ++ flat_map out (fst (run step es s)))).
  { apply run_history; [reflexivity | by rewrite Hs]. }
  split; [exact Hh|]. rewrite Hh. apply length_lastn. rewrite length_app. simpl. lia.
Qed.
End History.

Ltac unfold_sensor :=
  unfold CpuPercentage_as_numeric, CpuTemperature_as_numeric, CpuFrequency_as_numeric,
    FanSpeed_as_numeric, NvmeTemperature_as_numeric, store_value in *.

Lemma CpuPercentage_history_step sys idx e s :
  history_step produced (last_val s) (last_val (snd (CpuPercentage_as_numeric sys idx e s)))
    (fst (CpuPercentage_as_numeric sys idx e s)).
Proof.
  unfold history_step; unfold_sensor.
  destruct sys; repeat case_match; simpl; eauto.
Qed.

Lemma CpuTemperature_history_step sys idx e s :
  history_step produced (last_val s) (last_val (snd (CpuTemperature_as_numeric sys idx e s)))
    (fst (CpuTemperature_as_numeric sys idx e s)).
Proof.
  unfold history_step; unfold_sensor.
  destruct sys; repeat case_match; simpl; eauto.
Qed.

Lemma load_max_freq_hist sys idx e s : f_hist (load_max_freq sys idx e s) = f_hist s.
Proof. unfold load_max_freq. destruct sys; repeat case_match; reflexivity. Qed.

Lemma CpuFrequency_history_step sys idx e s :
  history_step produced (last_val (f_hist s))
    (last_val (f_hist (snd (CpuFrequency_as_numeric sys idx e s))))
    (fst (CpuFrequency_as_numeric sys idx e s)).
Proof.
  unfold history_step; unfold_sensor.
  pose proof (load_max_freq_hist sys idx e s) as Hl.
  destruct sys; repeat case_match; simpl; rewrite ?Hl; eauto.
Qed.

Lemma FanSpeed_history_step label sys e s :
  history_step produced_float (last_val s) (last_val (snd (FanSpeed_as_numeric label sys e s)))
    (fst (FanSpeed_as_numeric label sys e s)).
Proof. unfold history_step; unfold_sensor. simpl. eauto. Qed.

Lemma NvmeTemperature_history_step sys e s :
  history_step produced_float (last_val s) (last_val (snd (NvmeTemperature_as_numeric sys e s)))
    (fst (NvmeTemperature_as_numeric sys e s)).
Proof. unfold history_step; unfold_sensor. simpl. eauto. Qed.

Lemma DiskSpeed_history_step field e s :
  history_step produced (last_val (d_hist s))
    (last_val (d_hist (snd (DiskSpeed_call field e s)))) (fst (DiskSpeed_call field e s)).
Proof.
  unfold history_step, DiskSpeed_call, DiskSpeed_as_numeric, store_value.
  repeat case_match; simplify_eq; simpl; eauto.
Qed.

Lemma Example_history_step inst l :
  history_step produced_float l (snd (ExampleCustomNumericData_call inst l))
    (fst (ExampleCustomNumericData_call inst l)).
Proof. unfold history_step. simpl. eauto. Qed.

(** A Linux environment where logical CPU 0, on package 0, is 42% busy. *)
Definition env_linux_one_cpu_42 : env :=
  mk_env [42] [] (fun _ => TopoId 0%Z) (fun _ _ => None) ∅ 0%Z None None None 0 None false ImportFailed.

(** ** C2 *)

(** C2 (counterexample): the history is a class attribute, so an instance
    constructed after another instance's [numeric()] produced a value does
    not start with ten NaN: it sees the shared, already updated buffer. *)
Lemma C2_history_not_fresh_after_construction :
  last_values (construct_instance
                 (snd (Cpu0Percentage_as_numeric Linux env_linux_one_cpu_42 hist_init)))
  <> nan_history.
Proof. vm_compute. discriminate. Qed.

(** C2 (amended): each history is one list per class, shared by every
    instance.  From the class's initial list (ten NaN), after any sequence
    of [numeric()] calls (on any instances) it has length 10 and equals the
    last 10 elements of the ten NaN followed by the finite values the calls
    returned, in call order; a call that returns NaN or raises adds
    nothing.  So after N >= 10 producing calls it holds exactly the last 10
    produced values, oldest first.  This holds for the CPU load,
    temperature and frequency metrics, the fan speeds, the NVMe
    temperature, the disk read and write speeds and
    [ExampleCustomNumericData]. *)
Theorem C2_history_shared_fifo :
  (forall sys idx es,
     last_values (snd (run (CpuPercentage_as_numeric sys idx) es hist_init))
     = lastn 10 (nan_history ++ flat_map produced
                   (fst (run (CpuPercentage_as_numeric sys idx) es hist_init)))
     /\ length (last_values (snd (run (CpuPercentage_as_numeric sys idx) es hist_init)))
        = 10%nat)
  /\ (forall sys idx es,
     last_values (snd (run (CpuTemperature_as_numeric sys idx) es hist_init))
     = lastn 10 (nan_history ++ flat_map produced
                   (fst (run (CpuTemperature_as_numeric sys idx) es hist_init)))
     /\ length (last_values (snd (run (CpuTemperature_as_numeric sys idx) es hist_init)))
        = 10%nat)
  /\ (forall sys idx es,
     last_values (f_hist (snd (run (CpuFrequency_as_numeric sys idx) es freq_init)))
     = lastn 10 (nan_history ++ flat_map produced
                   (fst (run (CpuFrequency_as_numeric sys idx) es freq_init)))
     /\ length (last_values (f_hist (snd (run (CpuFrequency_as_numeric sys idx) es freq_init))))
        = 10%nat)
  /\ (forall label sys es,
     last_values (snd (run (FanSpeed_as_numeric label sys) es hist_init))
     = lastn 10 (nan_history ++ flat_map produced_float
                   (fst (run (FanSpeed_as_numeric label sys) es hist_init)))
     /\ length (last_values (snd (run (FanSpeed_as_numeric label sys) es hist_init))) = 10%nat)
  /\ (forall sys es,
     last_values (snd (run (NvmeTemperature_as_numeric sys) es hist_init))
     = lastn 10 (nan_history ++ flat_map produced_float
                   (fst (run (NvmeTemperature_as_numeric sys) es hist_init)))
     /\ length (last_values (snd (run (NvmeTemperature_as_numeric sys) es hist_init))) = 10%nat)
  /\ (forall field es,
     last_values (d_hist (snd (run (DiskSpeed_call field) es disk_init)))
     = lastn 10 (nan_history ++ flat_map produced
                   (fst (run (DiskSpeed_call field) es disk_init)))
     /\ length (last_values (d_hist (snd (run (DiskSpeed_call field) es disk_init)))) = 10%nat)
  /\ (forall insts,
     snd (run ExampleCustomNumericData_call insts nan_history)
     = lastn 10 (nan_history ++ flat_map produced_float
                   (fst (run ExampleCustomNumericData_call insts nan_history)))
     /\ length (snd (run ExampleCustomNumericData_call insts nan_history)) = 10%nat).
Proof.
  unfold last_values.
  split; [|split; [|split; [|split; [|split; [|split]]]]]; intros.
  - apply (hist_from_init last_val produced); [apply CpuPercentage_history_step | reflexivity].
  - apply (hist_from_init last_val produced); [apply CpuTemperature_history_step | reflexivity].
  - apply (hist_from_init (fun s => last_val (f_hist s)) produced);
      [apply CpuFrequency_history_step | reflexivity].
  - apply (hist_from_init last_val produced_float); [apply FanSpeed_history_step | reflexivity].
  - apply (hist_from_init last_val produced_float);
      [apply NvmeTemperature_history_step | reflexivity].
  - apply (hist_from_init (fun s => last_val (d_hist s)) produced);
      [apply DiskSpeed_history_step | reflexivity].
  - apply (hist_from_init (fun l => l) produced_float); [apply Example_history_step | reflexivity].
Qed.

(** An environment that offers no reading at all: no psutil data, no
    topology, no disk, no hardware-monitor binding. *)
Definition env_nothing : env :=
  mk_env [] [] (fun _ => TopoNotFound) (fun _ _ => None) ∅ 0%Z None None None 0 None false ImportFailed.

(** ** C10 *)

(** C10: for the CPU load, temperature and frequency metrics, a call that
    returns NaN leaves the stored [value] and the history [last_val]
    unchanged (for load and temperature, the whole class state). *)
Theorem C10_nan_call_keeps_state :
  (forall sys idx e st st',
     CpuPercentage_as_numeric sys idx e st = (Ok NaN, st') -> st' = st)
  /\ (forall sys idx e st st',
     CpuTemperature_as_numeric sys idx e st = (Ok NaN, st') -> st' = st)
  /\ (forall sys idx e st st',
     CpuFrequency_as_numeric sys idx e st = (Ok NaN, st') -> f_hist st' = f_hist st).
Proof.
  split; [|split]; intros sys idx e st st'; unfold_sensor.
  - destruct sys; repeat case_match; intros Heq; inversion Heq; auto.
  - destruct sys; repeat case_match; intros Heq; inversion Heq; auto.
  - pose proof (load_max_freq_hist sys idx e st) as Hl.
    destruct sys; repeat case_match; intros Heq; inversion Heq; subst; auto.
Qed.

Lemma C10_nan_call_keeps_state_witness :
  CpuPercentage_as_numeric OtherOS 0 env_nothing (mk_hist 37 nan_history)
    = (Ok NaN, mk_hist 37 nan_history)
  /\ mk_hist 37 nan_history = mk_hist 37 nan_history.
Proof.
  split; [reflexivity|].
  apply (proj1 C10_nan_call_keeps_state OtherOS 0%nat env_nothing); reflexivity.
Defined.

(** ** C1 *)

(** C1 (code bug): when [psutil.disk_io_counters()] returns [None] (no disk
    found), [DiskReadSpeed.as_numeric] raises [AttributeError] on
    [counters.read_bytes], whatever its state. *)
Theorem C1_disk_read_raises_without_disk :
  forall e st, env_disk e = None -> DiskReadSpeed_as_numeric e st = Exc AttributeError.
Proof.
  intros e st Hnone. unfold DiskReadSpeed_as_numeric, DiskSpeed_as_numeric, get_bytes.
  rewrite Hnone. repeat case_match; congruence.
Qed.

Lemma C1_disk_read_raises_without_disk_witness :
  env_disk env_nothing = None /\ DiskReadSpeed_as_numeric env_nothing disk_init = Exc AttributeError.
Proof.
  split; [reflexivity|]. apply C1_disk_read_raises_without_disk. reflexivity.
Defined.

(** ** C3 *)

(** C3: with the byte counter read, a call of [DiskReadSpeed]/[DiskWriteSpeed]
    ([field] = [read_bytes]/[write_bytes]) stores and returns
    [(bytes - prev_bytes) / elapsed / (1024*1024)] when a previous sample
    exists and [elapsed > 0] (no clamping), and otherwise returns the stored
    value unchanged; either way the sample is overwritten.  From the initial
    state the first call returns [0.0]. *)
Theorem C3_disk_rate :
  forall (field : disk_counters -> Z) e st c, env_disk e = Some c ->
  (forall pb pt, _prev_bytes st = Some pb -> _prev_time st = Some pt ->
     0 < env_time e - pt ->
     exists st',
       DiskSpeed_as_numeric field e st
         = Ok (Fin (inject_Z (field c - pb) / (env_time e - pt) / inject_Z (1024 * 1024)), st')
       /\ value (d_hist st')
          = inject_Z (field c - pb) / (env_time e - pt) / inject_Z (1024 * 1024)
       /\ _prev_bytes st' = Some (field c) /\ _prev_time st' = Some (env_time e))
  /\ ((_prev_bytes st = None \/ _prev_time st = None
       \/ exists pt, _prev_time st = Some pt /\ env_time e - pt <= 0) ->
     exists st',
       DiskSpeed_as_numeric field e st = Ok (Fin (value (d_hist st)), st')
       /\ value (d_hist st') = value (d_hist st)
       /\ _prev_bytes st' = Some (field c) /\ _prev_time st' = Some (env_time e))
  /\ DiskSpeed_as_numeric field e disk_init
       = Ok (Fin 0, mk_dstate (store_value hist_init 0) (Some (field c)) (Some (env_time e))).
Proof.
  intros field e st c Hc.
  unfold DiskSpeed_as_numeric, get_bytes. rewrite Hc.
  split; [|split].
  - intros pb pt Hpb Hpt Hdt. rewrite Hpb, Hpt.
    destruct (Qlt_le_dec 0 (env_time e - pt)) as [_|Hle].
    + eexists. split; [reflexivity|]. simpl. auto.
    + exfalso. apply (Qlt_not_le _ _ Hdt Hle).
  - intros Hno.
    destruct (_prev_bytes st) as [pb|], (_prev_time st) as [pt|];
      try (eexists; split; [reflexivity|]; simpl; auto).
    destruct Hno as [Hb | [Ht | [pt' [Ht Hle]]]]; try discriminate.
    injection Ht as <-.
    destruct (Qlt_le_dec 0 (env_time e - pt)) as [Hlt|_].
    + exfalso. apply (Qlt_not_le _ _ Hlt Hle).
    + eexists. split; [reflexivity|]. simpl. auto.
  - reflexivity.
Qed.

(** Two samples of a counter: 1 MiB read in one second. *)
Definition env_disk_1MiB_at_1s : env :=
  mk_env [] [] (fun _ => TopoNotFound) (fun _ _ => None) ∅ 0%Z None None
    (Some (mk_disk 2097152 0)) 1 None false ImportFailed.

Definition disk_state_1MiB_at_0s : disk_state :=
  mk_dstate hist_init (Some 1048576%Z) (Some 0).

Lemma C3_disk_rate_witness :
  env_disk env_disk_1MiB_at_1s = Some (mk_disk 2097152 0)
  /\ exists st',
       DiskReadSpeed_as_numeric env_disk_1MiB_at_1s disk_state_1MiB_at_0s
         = Ok (Fin (inject_Z (2097152 - 1048576) / (1 - 0) / inject_Z (1024 * 1024)), st')
       /\ value (d_hist st')
          = inject_Z (2097152 - 1048576) / (1 - 0) / inject_Z (1024 * 1024)
       /\ _prev_bytes st' = Some 2097152%Z /\ _prev_time st' = Some 1.
Proof.
  split; [reflexivity|].
  refine (proj1 (C3_disk_rate read_bytes env_disk_1MiB_at_1s disk_state_1MiB_at_0s
                   (mk_disk 2097152 0) eq_refl) 1048576%Z 0 eq_refl eq_refl _).
  reflexivity.
Defined.

(** ** C4 *)

(** Four logical CPUs with loads [10;20;60;80]; [topology] gives the
    outcome of reading each CPU's [physical_package_id]. *)
Definition env_four_cpus (topology : nat -> topo_read) : env :=
  mk_env [10; 20; 60; 80]
    [mk_cpufreq 2000 3000; mk_cpufreq 2200 3500; mk_cpufreq 1800 2800; mk_cpufreq 2400 3600]
    topology (fun _ _ => None) ∅ 0%Z None None None 0 None false ImportFailed.

Definition topology_0011 (i : nat) : topo_read :=
  match i with O | S O => TopoId 0%Z | _ => TopoId 1%Z end.

(** CPU 3's topology file cannot be read (permission denied). *)
Definition topology_001_denied (i : nat) : topo_read :=
  match i with O | S O => TopoId 0%Z | S (S O) => TopoId 1%Z | _ => TopoOtherError end.

(** CPU 3's topology file does not exist. *)
Definition topology_001_missing (i : nat) : topo_read :=
  match i with O | S O => TopoId 0%Z | S (S O) => TopoId 1%Z | _ => TopoNotFound end.

(** Grouping with topology [0,0,1,1]: load mean 15 and 70, current
    frequency mean 2100 and 2100, max frequency max 3500 and 3600. *)
Lemma package_grouping_0011 :
  let e := env_four_cpus topology_0011 in
  (exists q0 q1, _linux_get_per_cpu_usage e !! 0%Z = Some q0 /\ q0 == 15
                 /\ _linux_get_per_cpu_usage e !! 1%Z = Some q1 /\ q1 == 70)
  /\ (exists f0 f1, _linux_get_per_cpu_frequencies e !! 0%Z = Some f0 /\ f0 == 2100
                 /\ _linux_get_per_cpu_frequencies e !! 1%Z = Some f1 /\ f1 == 2100)
  /\ (exists m0 m1, _linux_get_per_cpu_max_frequencies e !! 0%Z = Some m0 /\ m0 == 3500
                 /\ _linux_get_per_cpu_max_frequencies e !! 1%Z = Some m1 /\ m1 == 3600).
Proof.
  simpl. split; [|split]; do 2 eexists; vm_compute;
    (split; [reflexivity|]); (split; [reflexivity|]); (split; [reflexivity|]); reflexivity.
Qed.

(** A missing topology file puts its CPU in package 0. *)
Lemma package_grouping_missing_file_defaults_to_0 :
  exists q0 q1,
    _linux_get_per_cpu_usage (env_four_cpus topology_001_missing) !! 0%Z = Some q0
    /\ q0 == 110 # 3
    /\ _linux_get_per_cpu_usage (env_four_cpus topology_001_missing) !! 1%Z = Some q1
    /\ q1 == 60.
Proof.
  do 2 eexists; vm_compute.
  (split; [reflexivity|]); (split; [reflexivity|]); (split; [reflexivity|]); reflexivity.
Qed.

(** C4 (code bug): the topology loop only catches [FileNotFoundError] and
    [ValueError]; an unreadable file (permission denied) raises out of it,
    the helper's [except Exception] returns an empty dict, and no package
    has a load: both CPU load metrics return NaN instead of CPU 3 being
    counted in package 0. *)
Theorem C4_unreadable_topology_drops_all_packages :
  _linux_get_per_cpu_usage (env_four_cpus topology_001_denied) = ∅
  /\ _linux_get_per_cpu_frequencies (env_four_cpus topology_001_denied) = ∅
  /\ _linux_get_per_cpu_max_frequencies (env_four_cpus topology_001_denied) = ∅
  /\ fst (Cpu0Percentage_as_numeric Linux (env_four_cpus topology_001_denied) hist_init) = Ok NaN
  /\ fst (Cpu1Percentage_as_numeric Linux (env_four_cpus topology_001_denied) hist_init) = Ok NaN.
Proof. repeat split; reflexivity. Qed.

(** ** C5 *)

Lemma find_in_sensors_some ty nc ns (l : list sensor) s :
  find_in_sensors ty nc ns l = Some s <->
  exists l1 l2, l = l1 ++ s :: l2 /\ sensor_matches ty nc ns s = true
                /\ Forall (fun s' => sensor_matches ty nc ns s' = false) l1.
Proof.
  induction l as [|s0 l IH]; simpl.
  - split; [discriminate|]. intros (l1 & l2 & Hl & _). destruct l1; discriminate.
  - destruct (sensor_matches ty nc ns s0) eqn:Hm.
    + split.
      * intros [= <-]. exists [], l. auto.
      * intros (l1 & l2 & Hl & Hs & Hf). destruct l1 as [|s1 l1].
        -- by injection Hl as -> _.
        -- injection Hl as -> _. inversion Hf; congruence.
    + rewrite IH. split.
      * intros (l1 & l2 & -> & Hs & Hf). exists (s0 :: l1), l2. auto.
      * intros (l1 & l2 & Hl & Hs & Hf). destruct l1 as [|s1 l1].
        -- injection Hl as -> _. congruence.
        -- injection Hl as -> ->. inversion Hf; subst. eauto.
Qed.

Lemma find_in_sensors_none ty nc ns (l : list sensor) :
  find_in_sensors ty nc ns l = None <->
  forall s, In s l -> sensor_matches ty nc ns s = false.
Proof.
  induction l as [|s0 l IH]; simpl.
  - split; [intros _ s []|reflexivity].
  - destruct (sensor_matches ty nc ns s0) eqn:Hm.
    + split; [discriminate|]. intros H. rewrite H in Hm; [discriminate|auto].
    + rewrite IH. split.
      * intros H s [<-|Hin]; auto.
      * auto.
Qed.

Lemma sensor_matches_temperature (p : string) (s : sensor) :
  p <> "" ->
  sensor_matches Temperature None (Some p) s = true <-> live_temperature_with_prefix p s.
Proof.
  intros Hp. unfold sensor_matches, live_temperature_with_prefix, value_is_not_none,
    opt_str_truthy, str_startswith. simpl.
  assert (Hpb : String.eqb p "" = false) by (apply String.eqb_neq; exact Hp).
  rewrite Hpb. simpl.
  destruct (SensorType s), (Value s); simpl;
    try (split; [discriminate|intros (? & ? & ?); congruence]).
  destruct (String.prefix p (Name s)); simpl.
  - split; [intros _; split; [reflexivity|split; [discriminate|reflexivity]] | reflexivity].
  - split; [discriminate|intros (_ & _ & ?); discriminate].
Qed.

Lemma find_temperature_none (cpu : hardware) (p : string) :
  p <> "" ->
  _find_sensor_lhm (Some cpu) Temperature None (Some p) = None <->
  forall s, In s (Sensors cpu) -> ~ live_temperature_with_prefix p s.
Proof.
  intros Hp. simpl. rewrite find_in_sensors_none. split.
  - intros H s Hin Hl. apply (sensor_matches_temperature p s Hp) in Hl.
    rewrite H in Hl by exact Hin. discriminate.
  - intros H s Hin. apply not_true_iff_false. intros Hm.
    apply (H s Hin). by apply sensor_matches_temperature.
Qed.

Lemma find_temperature_some (cpu : hardware) (p : string) (s : sensor) :
  p <> "" ->
  _find_sensor_lhm (Some cpu) Temperature None (Some p) = Some s <->
  exists l1 l2, Sensors cpu = l1 ++ s :: l2 /\ live_temperature_with_prefix p s
                /\ forall s', In s' l1 -> ~ live_temperature_with_prefix p s'.
Proof.
  intros Hp. simpl. rewrite find_in_sensors_some. split.
  - intros (l1 & l2 & Hl & Hm & Hf). exists l1, l2. split; [exact Hl|]. split.
    + by apply sensor_matches_temperature.
    + intros s' Hin Hlive. rewrite Forall_forall in Hf.
      apply (sensor_matches_temperature p s' Hp) in Hlive.
      rewrite (Hf s' (proj2 (list_elem_of_In _ _) Hin)) in Hlive. discriminate.
  - intros (l1 & l2 & Hl & Hlive & Hf). exists l1, l2. split; [exact Hl|]. split.
    + by apply sensor_matches_temperature.
    + rewrite Forall_forall. intros s' Hin. apply not_true_iff_false. intros Hm.
      apply (Hf s'); [by apply list_elem_of_In|]. by apply sensor_matches_temperature.
Qed.

Lemma first_prefix_sensor_some (cpu : hardware) (ps : list string) (s : sensor) :
  Forall (fun p => p <> "") ps ->
  first_prefix_sensor cpu ps = Some s <->
  exists pre p post l1 l2,
    ps = pre ++ p :: post
    /\ (forall q s', In q pre -> In s' (Sensors cpu) -> ~ live_temperature_with_prefix q s')
    /\ Sensors cpu = l1 ++ s :: l2
    /\ live_temperature_with_prefix p s
    /\ (forall s', In s' l1 -> ~ live_temperature_with_prefix p s').
Proof.
  induction ps as [|p0 r IH]; intros Hne; cbn [first_prefix_sensor].
  - split; [discriminate|]. intros (pre & p & post & l1 & l2 & Hps & _).
    destruct pre; discriminate.
  - inversion Hne as [|? ? Hp0 Hr]; subst. specialize (IH Hr).
    destruct (_find_sensor_lhm (Some cpu) Temperature None (Some p0)) as [s0|] eqn:Hf.
    + split.
      * intros [= <-]. apply (find_temperature_some cpu p0 s0 Hp0) in Hf.
        destruct Hf as (l1 & l2 & Hl & Hlive & Hfirst).
        exists [], p0, r, l1, l2. split; [reflexivity|]. split; [intros q s' []|].
        split; [exact Hl|split; [exact Hlive|exact Hfirst]].
      * intros (pre & p & post & l1 & l2 & Hps & Hpre & Hl & Hlive & Hfirst).
        destruct pre as [|q pre'].
        -- injection Hps as <- <-. f_equal.
           assert (Hs : _find_sensor_lhm (Some cpu) Temperature None (Some p0) = Some s)
             by (apply find_temperature_some; eauto).
           congruence.
        -- injection Hps as <- _. exfalso.
           apply (find_temperature_some cpu p0 s0 Hp0) in Hf.
           destruct Hf as (m1 & m2 & Hm & Hlive0 & _).
           apply (Hpre p0 s0); [left; reflexivity| |exact Hlive0].
           rewrite Hm. apply in_or_app. right. left. reflexivity.
    + rewrite IH. pose proof (proj1 (find_temperature_none cpu p0 Hp0) Hf) as Hn. clear Hf. rename Hn into Hf. split.
      * intros (pre & p & post & l1 & l2 & Hps & Hpre & Hl & Hlive & Hfirst).
        exists (p0 :: pre), p, post, l1, l2. rewrite Hps. split; [reflexivity|].
        split; [|split; [exact Hl|split; [exact Hlive|exact Hfirst]]].
        intros q s' [<-|Hq] Hin; eauto.
      * intros (pre & p & post & l1 & l2 & Hps & Hpre & Hl & Hlive & Hfirst).
        destruct pre as [|q pre'].
        -- injection Hps as <- _. exfalso. apply (Hf s); [|exact Hlive].
           rewrite Hl. apply in_or_app. right. left. reflexivity.
        -- injection Hps as <- Hps. exists pre', p, post, l1, l2.
           split; [exact Hps|].
           split; [|split; [exact Hl|split; [exact Hlive|exact Hfirst]]].
           intros q' s' Hq Hin. apply Hpre; [right|]; auto.
Qed.

Lemma first_prefix_sensor_none (cpu : hardware) (ps : list string) :
  Forall (fun p => p <> "") ps ->
  first_prefix_sensor cpu ps = None <->
  forall p s, In p ps -> In s (Sensors cpu) -> ~ live_temperature_with_prefix p s.
Proof.
  induction ps as [|p0 r IH]; intros Hne; cbn [first_prefix_sensor].
  - split; [intros _ p s []|reflexivity].
  - inversion Hne as [|? ? Hp0 Hr]; subst. specialize (IH Hr).
    destruct (_find_sensor_lhm (Some cpu) Temperature None (Some p0)) as [s0|] eqn:Hf.
    + split; [discriminate|]. intros H. exfalso.
      apply (find_temperature_some cpu p0 s0 Hp0) in Hf.
      destruct Hf as (m1 & m2 & Hm & Hlive0 & _).
      apply (H p0 s0); [left; reflexivity| |exact Hlive0].
      rewrite Hm. apply in_or_app. right. left. reflexivity.
    + rewrite IH. pose proof (proj1 (find_temperature_none cpu p0 Hp0) Hf) as Hn. clear Hf. rename Hn into Hf. split.
      * intros H p s [<-|Hp] Hin; eauto.
      * intros H p s Hp Hin. apply H; [right|]; auto.
Qed.

Lemma temperature_prefixes_nonempty : Forall (fun p => p <> "") temperature_prefixes.
Proof. repeat constructor; discriminate. Qed.

(** A Windows machine whose first CPU reports, in this order, a live
    ["CPU Package"] sensor at 50 and a live ["Core Max #1"] sensor at 70. *)
Definition cpu_package_then_core_max : hardware :=
  mk_hardware HwCpu
    [mk_sensor Temperature "CPU Package" (Some 50);
     mk_sensor Temperature "Core Max #1" (Some 70)].

Definition env_windows_two_temperatures : env :=
  mk_env [] [] (fun _ => TopoNotFound) (fun _ _ => None) ∅ 0%Z None None None 0
    (Some [cpu_package_then_core_max]) true ImportFailed.

(** C5: the Windows temperature path tries the prefixes
    ["Core Average"; "Core Max"; "CPU Package"; "Core"] in order and takes,
    for the first prefix that has a live temperature sensor, the first such
    sensor in enumeration order (and NaN when no prefix has one); with
    sensors ["CPU Package"] and ["Core Max #1"] it picks ["Core Max #1"]. *)
Theorem C5_temperature_prefix_priority :
  (forall cpu s,
     first_prefix_sensor cpu temperature_prefixes = Some s <->
     exists pre p post l1 l2,
       temperature_prefixes = pre ++ p :: post
       /\ (forall q s', In q pre -> In s' (Sensors cpu) -> ~ live_temperature_with_prefix q s')
       /\ Sensors cpu = l1 ++ s :: l2
       /\ live_temperature_with_prefix p s
       /\ (forall s', In s' l1 -> ~ live_temperature_with_prefix p s'))
  /\ (forall cpu,
     first_prefix_sensor cpu temperature_prefixes = None <->
     forall p s, In p temperature_prefixes -> In s (Sensors cpu) ->
                 ~ live_temperature_with_prefix p s)
  /\ (forall e st cpu, lhm_cpu e 0 = inl (Some cpu) ->
     fst (Cpu0Temperature_as_numeric Windows e st)
       = Ok match first_prefix_sensor cpu temperature_prefixes with
            | Some s => Fin (sensor_float s)
            | None => NaN
            end)
  /\ option_map Name (first_prefix_sensor cpu_package_then_core_max temperature_prefixes)
       = Some "Core Max #1"
  /\ fst (Cpu0Temperature_as_numeric Windows env_windows_two_temperatures hist_init) = Ok (Fin 70).
Proof.
  split; [|split; [|split; [|split]]].
  - intros cpu s. apply first_prefix_sensor_some, temperature_prefixes_nonempty.
  - intros cpu. apply first_prefix_sensor_none, temperature_prefixes_nonempty.
  - intros e st cpu Hcpu. unfold Cpu0Temperature_as_numeric, CpuTemperature_as_numeric.
    rewrite Hcpu. destruct (first_prefix_sensor cpu temperature_prefixes); reflexivity.
  - reflexivity.
  - reflexivity.
Qed.

Lemma C5_temperature_prefix_priority_witness :
  lhm_cpu env_windows_two_temperatures 0 = inl (Some cpu_package_then_core_max)
  /\ fst (Cpu0Temperature_as_numeric Windows env_windows_two_temperatures hist_init)
     = Ok match first_prefix_sensor cpu_package_then_core_max temperature_prefixes with
          | Some s => Fin (sensor_float s)
          | None => NaN
          end.
Proof.
  split; [reflexivity|].
  apply (proj1 (proj2 (proj2 C5_temperature_prefix_priority))). reflexivity.
Defined.

(** ** C6 *)

(** The guard [MemoryClockSpeed._cached and MemoryClockSpeed.value > 0]. *)
Definition mem_cache_hit (st : mem_state) : bool :=
  _cached st && negb (Qle_bool (m_value st) 0).

Lemma MemoryClockSpeed_fin_cached sys e st q st' :
  MemoryClockSpeed_as_numeric sys e st = (Ok (Fin q), st') ->
  _cached st' = true /\ m_value st' = q.
Proof.
  unfold MemoryClockSpeed_as_numeric.
  destruct (_cached st && negb (Qle_bool (m_value st) 0)) eqn:Hg.
  - intros [= <- <-]. apply andb_prop in Hg as [Hc _]. auto.
  - destruct sys; repeat case_match; intros Heq; inversion Heq; subst; auto.
Qed.

Lemma MemoryClockSpeed_hit sys e st :
  mem_cache_hit st = true -> MemoryClockSpeed_as_numeric sys e st = (Ok (Fin (m_value st)), st).
Proof. unfold mem_cache_hit, MemoryClockSpeed_as_numeric. intros ->. reflexivity. Qed.

Lemma run_memory_hit sys es st :
  mem_cache_hit st = true ->
  run (MemoryClockSpeed_as_numeric sys) es st = (repeat (Ok (Fin (m_value st))) (length es), st).
Proof.
  intros Hhit. induction es as [|e es IH]; simpl; [reflexivity|].
  rewrite (MemoryClockSpeed_hit sys e st Hhit), IH. reflexivity.
Qed.

Lemma MemoryClockSpeed_miss sys e st :
  mem_cache_hit st = false ->
  fst (MemoryClockSpeed_as_numeric sys e st) = fst (MemoryClockSpeed_as_numeric sys e mem_init).
Proof.
  unfold mem_cache_hit, MemoryClockSpeed_as_numeric. intros ->. simpl.
  destruct sys; repeat case_match; reflexivity.
Qed.

Lemma mem_cache_hit_nonpositive (q : Q) (c : bool) :
  q <= 0 -> mem_cache_hit (mk_mem q c) = false.
Proof.
  intros Hq. unfold mem_cache_hit. simpl.
  rewrite (proj2 (Qle_bool_iff q 0) Hq). by destruct c.
Qed.

Lemma MemoryClockSpeed_failed_not_cached sys e st r st' :
  MemoryClockSpeed_as_numeric sys e st = (r, st') ->
  (forall q, r = Ok (Fin q) -> q <= 0) ->
  mem_cache_hit st' = false.
Proof.
  intros Hrun Hr. unfold MemoryClockSpeed_as_numeric in Hrun.
  destruct (_cached st && negb (Qle_bool (m_value st) 0)) eqn:Hg.
  - injection Hrun as <- <-. specialize (Hr _ eq_refl).
    apply andb_prop in Hg as [_ Hpos].
    rewrite (proj2 (Qle_bool_iff _ 0) Hr) in Hpos. discriminate.
  - destruct sys; repeat case_match; injection Hrun as <- <-;
      try exact Hg; apply mem_cache_hit_nonpositive; apply Hr; reflexivity.
Qed.

(** A Linux call where [_linux_get_memory_clock()] returns [speed]. *)
Definition env_memory_clock (speed : Z) : env :=
  mk_env [] [] (fun _ => TopoNotFound) (fun _ _ => None) ∅ speed None None None 0 None false ImportFailed.

(** C6: once [MemoryClockSpeed.as_numeric] has returned a positive [q],
    every later call returns [q] and leaves the state as it is, whatever the
    environment answers (it is not consulted); a call that returns NaN or a
    non-positive value leaves no usable cache, so the next call queries
    again and returns what a call from the initial state would.  A read of
    3200 followed by a failing read (0) returns 3200 twice. *)
Theorem C6_memory_clock_memoized :
  (forall sys e st q st',
     MemoryClockSpeed_as_numeric sys e st = (Ok (Fin q), st') -> 0 < q ->
     forall es, run (MemoryClockSpeed_as_numeric sys) es st'
                = (repeat (Ok (Fin q)) (length es), st'))
  /\ (forall sys e st r st',
     MemoryClockSpeed_as_numeric sys e st = (r, st') ->
     (forall q, r = Ok (Fin q) -> q <= 0) ->
     forall e', fst (MemoryClockSpeed_as_numeric sys e' st')
                = fst (MemoryClockSpeed_as_numeric sys e' mem_init))
  /\ fst (run (MemoryClockSpeed_as_numeric Linux)
              [env_memory_clock 3200; env_memory_clock 0] mem_init)
     = [Ok (Fin (inject_Z 3200)); Ok (Fin (inject_Z 3200))].
Proof.
  split; [|split].
  - intros sys e st q st' Hrun Hq es.
    destruct (MemoryClockSpeed_fin_cached sys e st q st' Hrun) as [Hc Hv].
    assert (Hhit : mem_cache_hit st' = true).
    { unfold mem_cache_hit. rewrite Hc, Hv.
      destruct (Qle_bool q 0) eqn:Hle; [|reflexivity].
      apply Qle_bool_iff in Hle. exfalso. apply (Qlt_not_le _ _ Hq Hle). }
    rewrite (run_memory_hit sys es st' Hhit), Hv. reflexivity.
  - intros sys e st r st' Hrun Hr e'.
    apply MemoryClockSpeed_miss. exact (MemoryClockSpeed_failed_not_cached sys e st r st' Hrun Hr).
  - reflexivity.
Qed.

Lemma C6_memory_clock_memoized_witness :
  MemoryClockSpeed_as_numeric Linux (env_memory_clock 3200) mem_init
    = (Ok (Fin (inject_Z 3200)), mk_mem (inject_Z 3200) true)
  /\ 0 < inject_Z 3200
  /\ run (MemoryClockSpeed_as_numeric Linux) [env_memory_clock 0] (mk_mem (inject_Z 3200) true)
     = (repeat (Ok (Fin (inject_Z 3200))) 1, mk_mem (inject_Z 3200) true).
Proof.
  split; [reflexivity|]. split; [reflexivity|].
  apply (proj1 C6_memory_clock_memoized Linux (env_memory_clock 3200) mem_init);
    reflexivity.
Defined.

(** ** C7 *)

Lemma CpuFrequency_max_freq_fields sys idx e st :
  max_freq (snd (CpuFrequency_as_numeric sys idx e st)) = max_freq (load_max_freq sys idx e st)
  /\ _max_freq_loaded (snd (CpuFrequency_as_numeric sys idx e st))
     = _max_freq_loaded (load_max_freq sys idx e st).
Proof. unfold CpuFrequency_as_numeric. destruct sys; repeat case_match; auto. Qed.

(** One logical CPU on package 0 running at 2000 MHz whose maximum is
    [fmax] (0: unknown to psutil); its sysfs [cpufreq] files are unreadable. *)
Definition env_one_cpu_max (fmax : Q) : env :=
  mk_env [] [mk_cpufreq 2000 fmax] (fun _ => TopoId 0%Z) (fun _ _ => None) ∅ 0%Z
    None None None 0 None false ImportFailed.

(** C7 (counterexample): the first call finds no max frequency for package
    0; the second call's environment has one (3500 MHz), yet the cached
    [max_freq] stays 0: the lookup is not retried. *)
Lemma C7_failed_max_freq_not_retried :
  let st1 := snd (Cpu0Frequency_as_numeric Linux (env_one_cpu_max 0) freq_init) in
  _linux_get_per_cpu_max_frequencies (env_one_cpu_max 0) !! 0%Z = None
  /\ (exists m, _linux_get_per_cpu_max_frequencies (env_one_cpu_max 3500) !! 0%Z = Some m
                /\ m == 3500)
  /\ max_freq (snd (Cpu0Frequency_as_numeric Linux (env_one_cpu_max 3500) st1)) = 0.
Proof.
  simpl. split; [reflexivity|]. split; [|reflexivity].
  eexists. split; reflexivity.
Qed.

(** C7 (amended): the max-frequency lookup runs only in the first
    [numeric()] call (and only on Linux): that call sets [_max_freq_loaded]
    whatever the outcome and stores the package's entry if there is one
    (else [max_freq] stays 0); every later call leaves [max_freq] unchanged
    without querying again, so a failed first lookup is never retried. *)
Theorem C7_max_freq_loaded_once :
  (forall sys idx e st, _max_freq_loaded (snd (CpuFrequency_as_numeric sys idx e st)) = true)
  /\ (forall sys idx e st, _max_freq_loaded st = true ->
      max_freq (snd (CpuFrequency_as_numeric sys idx e st)) = max_freq st)
  /\ (forall sys idx e,
      max_freq (snd (CpuFrequency_as_numeric sys idx e freq_init))
      = match sys with
        | Linux => default 0 (_linux_get_per_cpu_max_frequencies e !! Z.of_nat idx)
        | _ => 0
        end).
Proof.
  split; [|split].
  - intros sys idx e st. rewrite (proj2 (CpuFrequency_max_freq_fields sys idx e st)).
    unfold load_max_freq. destruct (_max_freq_loaded st) eqn:Hl; [exact Hl|].
    destruct sys; repeat case_match; reflexivity.
  - intros sys idx e st Hl. rewrite (proj1 (CpuFrequency_max_freq_fields sys idx e st)).
    unfold load_max_freq. rewrite Hl. reflexivity.
  - intros sys idx e. rewrite (proj1 (CpuFrequency_max_freq_fields sys idx e freq_init)).
    unfold load_max_freq. destruct sys; simpl; repeat case_match; reflexivity.
Qed.

Lemma C7_max_freq_loaded_once_witness :
  _max_freq_loaded (mk_freq hist_init 4200 true) = true
  /\ max_freq (snd (CpuFrequency_as_numeric Linux 0 (env_one_cpu_max 3500)
                      (mk_freq hist_init 4200 true))) = 4200.
Proof.
  split; [reflexivity|].
  apply (proj1 (proj2 C7_max_freq_loaded_once)). reflexivity.
Defined.

(** ** C8 *)










(** ** C9 *)

(** C9 (code bug): [Cpu0Percentage.as_string] formats with [:.0f] and no
    width, so the text shrinks with the value: 100% is four characters,
    5% two, although the file's own example asks for a fixed width to avoid
    ghosting. *)
Theorem C9_percentage_text_shrinks :
  Cpu0Percentage_as_string (mk_hist 100 nan_history) = "100%"
  /\ Cpu0Percentage_as_string (mk_hist 5 nan_history) = "5%"
  /\ String.length (Cpu0Percentage_as_string (mk_hist 100 nan_history))
     <> String.length (Cpu0Percentage_as_string (mk_hist 5 nan_history)).
Proof. vm_compute. split; [reflexivity|split; [reflexivity|discriminate]]. Qed.

(* ------------------------------------------------------------------ *)
(** * Further properties of the code *)

(** ** Package grouping *)

Lemma read_pkg_id_pkg_of topo i z : read_pkg_id (topo i) = Some z -> z = pkg_of topo i.
Proof. unfold read_pkg_id, pkg_of. destruct (topo i); congruence. Qed.

Lemma read_pkg_map_keep topo (l : list nat) (m pm : gmap nat Z) :
  read_pkg_map topo l m = Some pm -> forall j, ~ In j l -> pm !! j = m !! j.
Proof.
  revert m. induction l as [|i l IH]; intros m Hr j Hj; simpl in Hr.
  - congruence.
  - destruct (read_pkg_id (topo i)) as [z|] eqn:Hz; [|discriminate].
    rewrite (IH _ Hr j (fun H => Hj (or_intror H))).
    apply lookup_insert_ne. intros ->. apply Hj. left. reflexivity.
Qed.

Lemma read_pkg_map_lookup topo (l : list nat) (m pm : gmap nat Z) :
  read_pkg_map topo l m = Some pm -> forall i, In i l -> pm !! i = Some (pkg_of topo i).
Proof.
  revert m. induction l as [|i0 l IH]; intros m Hr i Hi; simpl in Hr; [destruct Hi|].
  destruct (read_pkg_id (topo i0)) as [z|] eqn:Hz; [|discriminate].
  destruct (in_dec Nat.eq_dec i l) as [Hin|Hnin]; [exact (IH _ Hr i Hin)|].
  destruct Hi as [<-|Hin]; [|contradiction].
  rewrite (read_pkg_map_keep topo l _ pm Hr i0 Hnin), lookup_insert_eq.
  by rewrite (read_pkg_id_pkg_of topo i0 z Hz).
Qed.

Lemma read_pkg_map_ok topo (l : list nat) (m : gmap nat Z) :
  (forall i, In i l -> topo i <> TopoOtherError) -> exists pm, read_pkg_map topo l m = Some pm.
Proof.
  revert m. induction l as [|i l IH]; intros m Hok; simpl; [eauto|].
  destruct (topo i) eqn:Ht; simpl;
    try (apply IH; intros j Hj; apply Hok; right; exact Hj).
  exfalso. exact (Hok i (or_introl eq_refl) Ht).
Qed.

Lemma read_pkg_map_bad topo (l : list nat) (m : gmap nat Z) i :
  In i l -> topo i = TopoOtherError -> read_pkg_map topo l m = None.
Proof.
  revert m. induction l as [|i0 l IH]; intros m Hi Ht; simpl; [destruct Hi|].
  destruct Hi as [->|Hi].
  - rewrite Ht. reflexivity.
  - destruct (read_pkg_id (topo i0)); [apply IH; assumption|reflexivity].
Qed.

Lemma group_by_pkg_lookup topo (pm : gmap nat Z) (i : nat) (xs : list Q)
    (g : gmap Z (list Q)) (p : Z) :
  (forall j, (i <= j < i + length xs)%nat -> pm !! j = Some (pkg_of topo j)) ->
  group_by_pkg pm i xs g !! p
  = match g !! p, pkg_members topo p i xs with
    | None, [] => None
    | o, m => Some (default [] o ++ m)
    end.
Proof.
  revert i g. induction xs as [|x xs IH]; intros i g Hpm; simpl.
  - destruct (g !! p); [by rewrite app_nil_r|reflexivity].
  - rewrite IH by (intros j Hj; apply Hpm; simpl; lia).
    rewrite (Hpm i) by (simpl; lia). simpl. unfold group_append.
    destruct (Z.eq_dec (pkg_of topo i) p) as [->|Hne].
    + rewrite lookup_insert_eq. destruct (Z.eq_dec p p); [|congruence].
      destruct (g !! p); simpl; rewrite <- ?app_assoc; reflexivity.
    + rewrite lookup_insert_ne by exact Hne. destruct (Z.eq_dec (pkg_of topo i) p); [congruence|].
      reflexivity.
Qed.

Lemma group_max_by_pkg_lookup e (pm : gmap nat Z) (i : nat) (fs : list cpufreq)
    (g : gmap Z (list Q)) (p : Z) :
  (forall j, (i <= j < i + length fs)%nat -> pm !! j = Some (pkg_of (env_topology e) j)) ->
  group_max_by_pkg e pm i fs g !! p
  = match g !! p, pkg_max_members e p i fs with
    | None, [] => None
    | o, m => Some (default [] o ++ m)
    end.
Proof.
  revert i g. induction fs as [|f fs IH]; intros i g Hpm; simpl.
  - destruct (g !! p); [by rewrite app_nil_r|reflexivity].
  - rewrite IH by (intros j Hj; apply Hpm; simpl; lia).
    destruct (Qlt_le_dec 0 (cpu_max_mhz e i f)) as [Hpos|Hnpos].
    + rewrite (Hpm i) by (simpl; lia). simpl. unfold group_append.
      destruct (Z.eq_dec (pkg_of (env_topology e) i) p) as [->|Hne].
      * rewrite lookup_insert_eq. destruct (Z.eq_dec p p); [|congruence].
        destruct (g !! p); simpl; rewrite <- ?app_assoc; reflexivity.
      * rewrite lookup_insert_ne by exact Hne.
        destruct (Z.eq_dec (pkg_of (env_topology e) i) p); [congruence|]. reflexivity.
    + destruct (Z.eq_dec (pkg_of (env_topology e) i) p); reflexivity.
Qed.

Lemma pkg_map_of_seq topo n pm :
  read_pkg_map topo (seq 0 n) ∅ = Some pm ->
  forall j, (0 <= j < 0 + n)%nat -> pm !! j = Some (pkg_of topo j).
Proof.
  intros Hr j Hj. apply (read_pkg_map_lookup topo _ _ pm Hr). apply in_seq. lia.
Qed.

Lemma seq_readable topo n :
  topology_readable topo n -> forall i, In i (seq 0 n) -> topo i <> TopoOtherError.
Proof. intros H i Hi. apply H. apply in_seq in Hi. lia. Qed.

Lemma usage_lookup_pm e x xs pm p :
  env_cpu_percent e = x :: xs ->
  read_pkg_map (env_topology e) (seq 0 (length (x :: xs))) ∅ = Some pm ->
  _linux_get_per_cpu_usage e !! p
  = group_value mean (pkg_members (env_topology e) p 0 (env_cpu_percent e)).
Proof.
  intros Hc Hpm. unfold _linux_get_per_cpu_usage. rewrite Hc. cbv zeta.
  rewrite Hpm, lookup_fmap.
  rewrite (group_by_pkg_lookup (env_topology e)) by exact (pkg_map_of_seq _ _ _ Hpm).
  rewrite lookup_empty. destruct (pkg_members _ _ _ _); reflexivity.
Qed.

Lemma frequencies_lookup_pm e f fs pm p :
  env_cpu_freq e = f :: fs ->
  read_pkg_map (env_topology e) (seq 0 (length (f :: fs))) ∅ = Some pm ->
  _linux_get_per_cpu_frequencies e !! p
  = group_value mean (pkg_members (env_topology e) p 0 (map freq_current (env_cpu_freq e))).
Proof.
  intros Hc Hpm. unfold _linux_get_per_cpu_frequencies. rewrite Hc. cbv zeta.
  rewrite Hpm, lookup_fmap.
  rewrite (group_by_pkg_lookup (env_topology e)).
  - rewrite lookup_empty. destruct (pkg_members _ _ _ _); reflexivity.
  - rewrite length_map. exact (pkg_map_of_seq _ _ _ Hpm).
Qed.

Lemma max_frequencies_lookup_pm e f fs pm p :
  env_cpu_freq e = f :: fs ->
  read_pkg_map (env_topology e) (seq 0 (length (f :: fs))) ∅ = Some pm ->
  _linux_get_per_cpu_max_frequencies e !! p
  = group_value py_max (pkg_max_members e p 0 (env_cpu_freq e)).
Proof.
  intros Hc Hpm. unfold _linux_get_per_cpu_max_frequencies. rewrite Hc. cbv zeta.
  rewrite Hpm, lookup_fmap.
  rewrite (group_max_by_pkg_lookup e) by exact (pkg_map_of_seq _ _ _ Hpm).
  rewrite lookup_empty. destruct (pkg_max_members _ _ _ _); reflexivity.
Qed.

Lemma usage_lookup e p :
  topology_readable (env_topology e) (length (env_cpu_percent e)) ->
  _linux_get_per_cpu_usage e !! p
  = group_value mean (pkg_members (env_topology e) p 0 (env_cpu_percent e)).
Proof.
  intros Hr. destruct (env_cpu_percent e) as [|x xs] eqn:Hc.
  - unfold _linux_get_per_cpu_usage. rewrite Hc. cbv zeta. rewrite lookup_empty.
    reflexivity.
  - destruct (read_pkg_map_ok (env_topology e) (seq 0 (length (x :: xs))) ∅
      (seq_readable _ _ Hr)) as [pm Hpm].
    rewrite <- Hc. exact (usage_lookup_pm e x xs pm p Hc Hpm).
Qed.

Theorem linux_per_cpu_usage_by_package e p :
  topology_readable (env_topology e) (length (env_cpu_percent e)) ->
  _linux_get_per_cpu_usage e !! p
  = group_value mean (pkg_members (env_topology e) p 0 (env_cpu_percent e)).
Proof. apply usage_lookup. Qed.

Theorem linux_per_cpu_frequencies_by_package e p :
  topology_readable (env_topology e) (length (env_cpu_freq e)) ->
  _linux_get_per_cpu_frequencies e !! p
  = group_value mean (pkg_members (env_topology e) p 0 (map freq_current (env_cpu_freq e))).
Proof.
  intros Hr. destruct (env_cpu_freq e) as [|f fs] eqn:Hc.
  - unfold _linux_get_per_cpu_frequencies. rewrite Hc. cbv zeta. rewrite lookup_empty.
    reflexivity.
  - destruct (read_pkg_map_ok (env_topology e) (seq 0 (length (f :: fs))) ∅
      (seq_readable _ _ Hr)) as [pm Hpm].
    rewrite <- Hc. exact (frequencies_lookup_pm e f fs pm p Hc Hpm).
Qed.

Theorem linux_per_cpu_max_frequencies_by_package e p :
  topology_readable (env_topology e) (length (env_cpu_freq e)) ->
  _linux_get_per_cpu_max_frequencies e !! p
  = group_value py_max (pkg_max_members e p 0 (env_cpu_freq e)).
Proof.
  intros Hr. destruct (env_cpu_freq e) as [|f fs] eqn:Hc.
  - unfold _linux_get_per_cpu_max_frequencies. rewrite Hc. cbv zeta. rewrite lookup_empty.
    reflexivity.
  - destruct (read_pkg_map_ok (env_topology e) (seq 0 (length (f :: fs))) ∅
      (seq_readable _ _ Hr)) as [pm Hpm].
    rewrite <- Hc. exact (max_frequencies_lookup_pm e f fs pm p Hc Hpm).
Qed.

Theorem linux_per_cpu_unreadable_topology e i :
  (i < length (env_cpu_percent e))%nat -> env_topology e i = TopoOtherError ->
  _linux_get_per_cpu_usage e = ∅.
Proof.
  intros Hi Ht. unfold _linux_get_per_cpu_usage. cbv zeta.
  destruct (env_cpu_percent e) as [|x xs]; [reflexivity|].
  rewrite (read_pkg_map_bad _ _ _ i) by (try apply in_seq; simpl in *; lia || exact Ht).
  reflexivity.
Qed.

Theorem linux_per_cpu_freq_unreadable_topology e i :
  (i < length (env_cpu_freq e))%nat -> env_topology e i = TopoOtherError ->
  _linux_get_per_cpu_frequencies e = ∅ /\ _linux_get_per_cpu_max_frequencies e = ∅.
Proof.
  intros Hi Ht. unfold _linux_get_per_cpu_frequencies, _linux_get_per_cpu_max_frequencies.
  cbv zeta. destruct (env_cpu_freq e) as [|f fs]; [split; reflexivity|].
  rewrite (read_pkg_map_bad _ _ _ i) by (try apply in_seq; simpl in *; lia || exact Ht).
  split; reflexivity.
Qed.

(** ** Means and maxima *)

Lemma inject_Z_succ k : inject_Z (Z.of_nat (S k)) == inject_Z (Z.of_nat k) + 1.
Proof. rewrite Nat2Z.inj_succ, <- Z.add_1_r, inject_Z_plus. reflexivity. Qed.

Lemma sum_bounds lo hi (l : list Q) :
  Forall (fun x => lo <= x <= hi) l ->
  lo * inject_Z (Z.of_nat (length l)) <= foldr Qplus 0 l
  /\ foldr Qplus 0 l <= hi * inject_Z (Z.of_nat (length l)).
Proof.
  induction 1 as [|x l Hx Hl IH]; simpl.
  - split; unfold Qle; simpl; lia.
  - rewrite inject_Z_succ. destruct IH. split; lra.
Qed.

Lemma mean_bounds lo hi (l : list Q) :
  l <> [] -> Forall (fun x => lo <= x <= hi) l -> lo <= mean l <= hi.
Proof.
  intros Hne Hf. destruct (sum_bounds lo hi l Hf) as [H1 H2].
  assert (Hpos : 0 < inject_Z (Z.of_nat (length l))).
  { destruct l as [|x l]; [congruence|]. unfold Qlt. simpl. lia. }
  unfold mean. split.
  - apply Qle_shift_div_l; assumption.
  - apply Qle_shift_div_r; assumption.
Qed.

Lemma py_max_aux (m : Q) (r : list Q) :
  let M := foldl (fun m y => if Qlt_le_dec m y then y else m) m r in
  (M = m \/ In M r) /\ m <= M /\ Forall (fun y => y <= M) r.
Proof.
  revert m. induction r as [|y r IH]; intros m; simpl.
  - split; [left; reflexivity|]. split; [apply Qle_refl|constructor].
  - set (m' := if Qlt_le_dec m y then y else m).
    destruct (IH m') as (Hin & Hge & Hall).
    assert (Hm : m <= m' /\ y <= m' /\ (m' = m \/ m' = y)).
    { unfold m'. destruct (Qlt_le_dec m y).
      - split; [lra|]. split; [lra|right; reflexivity].
      - split; [lra|]. split; [lra|left; reflexivity]. }
    destruct Hm as (Hm1 & Hm2 & Hm3). split; [|split].
    + destruct Hin as [Heq|Hin]; [|right; right; exact Hin].
      rewrite Heq. destruct Hm3 as [-> | ->]; [left; reflexivity|right; left; reflexivity].
    + apply Qle_trans with m'; assumption.
    + constructor; [apply Qle_trans with m'; assumption|exact Hall].
Qed.

Lemma py_max_spec (l : list Q) :
  l <> [] -> In (py_max l) l /\ Forall (fun y => y <= py_max l) l.
Proof.
  destruct l as [|x r]; [congruence|]. intros _. simpl.
  destruct (py_max_aux x r) as (Hin & Hge & Hall). split.
  - destruct Hin as [->|Hin]; [left; reflexivity|right; exact Hin].
  - constructor; assumption.
Qed.

Lemma pkg_members_incl topo p i xs y : In y (pkg_members topo p i xs) -> In y xs.
Proof.
  revert i. induction xs as [|x xs IH]; intros i; simpl; [tauto|].
  destruct (Z.eq_dec (pkg_of topo i) p); simpl.
  - intros [->|H]; [left; reflexivity|right; exact (IH _ H)].
  - intros H. right. exact (IH _ H).
Qed.

Lemma pkg_max_members_pos e p i fs y : In y (pkg_max_members e p i fs) -> 0 < y.
Proof.
  revert i. induction fs as [|f fs IH]; intros i; simpl; [tauto|].
  destruct (Z.eq_dec (pkg_of (env_topology e) i) p);
    [destruct (Qlt_le_dec 0 (cpu_max_mhz e i f))|]; simpl.
  - intros [<-|H]; [assumption|exact (IH _ H)].
  - exact (IH _).
  - exact (IH _).
Qed.

Lemma group_value_some f l v : group_value f l = Some v -> l <> [] /\ v = f l.
Proof. destruct l; simpl; [discriminate|]. intros [= <-]. split; [discriminate|reflexivity]. Qed.

Theorem linux_per_cpu_usage_bounds lo hi e p u :
  Forall (fun x => lo <= x <= hi) (env_cpu_percent e) ->
  _linux_get_per_cpu_usage e !! p = Some u -> lo <= u <= hi.
Proof.
  intros Hf Hu. destruct (env_cpu_percent e) as [|x xs] eqn:Hc.
  - unfold _linux_get_per_cpu_usage in Hu. rewrite Hc in Hu. cbv zeta in Hu.
    rewrite lookup_empty in Hu. discriminate.
  - destruct (read_pkg_map (env_topology e) (seq 0 (length (x :: xs))) ∅) as [pm|] eqn:Hpm.
    + rewrite (usage_lookup_pm e x xs pm p Hc Hpm) in Hu.
      apply group_value_some in Hu as [Hne ->]. apply mean_bounds; [exact Hne|].
      rewrite List.Forall_forall in *. intros y Hy. apply Hf.
      rewrite <- Hc. exact (pkg_members_incl _ _ _ _ _ Hy).
    + unfold _linux_get_per_cpu_usage in Hu. rewrite Hc in Hu. cbv zeta in Hu.
      rewrite Hpm, lookup_empty in Hu. discriminate.
Qed.

Theorem linux_per_cpu_max_frequencies_positive e p m :
  _linux_get_per_cpu_max_frequencies e !! p = Some m -> 0 < m.
Proof.
  intros Hm. destruct (env_cpu_freq e) as [|f fs] eqn:Hc.
  - unfold _linux_get_per_cpu_max_frequencies in Hm. rewrite Hc in Hm. cbv zeta in Hm.
    rewrite lookup_empty in Hm. discriminate.
  - destruct (read_pkg_map (env_topology e) (seq 0 (length (f :: fs))) ∅) as [pm|] eqn:Hpm.
    + rewrite (max_frequencies_lookup_pm e f fs pm p Hc Hpm) in Hm.
      apply group_value_some in Hm as [Hne ->].
      exact (pkg_max_members_pos _ _ _ _ _ (proj1 (py_max_spec _ Hne))).
    + unfold _linux_get_per_cpu_max_frequencies in Hm. rewrite Hc in Hm. cbv zeta in Hm.
      rewrite Hpm, lookup_empty in Hm. discriminate.
Qed.

Theorem linux_cpu_percentage_package_mean idx e st :
  topology_readable (env_topology e) (length (env_cpu_percent e)) ->
  CpuPercentage_as_numeric Linux idx e st
  = match pkg_members (env_topology e) (Z.of_nat idx) 0 (env_cpu_percent e) with
    | [] => (Ok NaN, st)
    | l => (Ok (Fin (mean l)), store_value st (mean l))
    end.
Proof.
  intros Hr. unfold CpuPercentage_as_numeric. cbv zeta.
  rewrite (usage_lookup e _ Hr). destruct (pkg_members _ _ _ _); reflexivity.
Qed.

Lemma topology_0011_readable n : topology_readable topology_0011 n.
Proof. intros i _. unfold topology_0011. destruct i as [|[|i]]; discriminate. Qed.

Lemma linux_per_cpu_usage_by_package_witness :
  topology_readable (env_topology (env_four_cpus topology_0011))
    (length (env_cpu_percent (env_four_cpus topology_0011)))
  /\ _linux_get_per_cpu_usage (env_four_cpus topology_0011) !! 1%Z
     = group_value mean (pkg_members topology_0011 1%Z 0 [10; 20; 60; 80]).
Proof.
  split; [apply topology_0011_readable|].
  apply (linux_per_cpu_usage_by_package (env_four_cpus topology_0011) 1%Z).
  apply topology_0011_readable.
Defined.

Lemma linux_per_cpu_frequencies_by_package_witness :
  topology_readable (env_topology (env_four_cpus topology_0011))
    (length (env_cpu_freq (env_four_cpus topology_0011)))
  /\ _linux_get_per_cpu_frequencies (env_four_cpus topology_0011) !! 0%Z
     = group_value mean (pkg_members topology_0011 0%Z 0 [2000; 2200; 1800; 2400]).
Proof.
  split; [apply topology_0011_readable|].
  apply (linux_per_cpu_frequencies_by_package (env_four_cpus topology_0011) 0%Z).
  apply topology_0011_readable.
Defined.

Lemma linux_per_cpu_max_frequencies_by_package_witness :
  topology_readable (env_topology (env_four_cpus topology_0011))
    (length (env_cpu_freq (env_four_cpus topology_0011)))
  /\ _linux_get_per_cpu_max_frequencies (env_four_cpus topology_0011) !! 0%Z
     = group_value py_max (pkg_max_members (env_four_cpus topology_0011) 0%Z 0
                             (env_cpu_freq (env_four_cpus topology_0011))).
Proof.
  split; [apply topology_0011_readable|].
  apply (linux_per_cpu_max_frequencies_by_package (env_four_cpus topology_0011) 0%Z).
  apply topology_0011_readable.
Defined.

Lemma linux_per_cpu_unreadable_topology_witness :
  (3 < length (env_cpu_percent (env_four_cpus topology_001_denied)))%nat
  /\ env_topology (env_four_cpus topology_001_denied) 3%nat = TopoOtherError
  /\ _linux_get_per_cpu_usage (env_four_cpus topology_001_denied) = ∅.
Proof.
  split; [simpl; lia|]. split; [reflexivity|].
  apply (linux_per_cpu_unreadable_topology _ 3%nat); [simpl; lia|reflexivity].
Defined.

Lemma linux_per_cpu_freq_unreadable_topology_witness :
  (3 < length (env_cpu_freq (env_four_cpus topology_001_denied)))%nat
  /\ env_topology (env_four_cpus topology_001_denied) 3%nat = TopoOtherError
  /\ _linux_get_per_cpu_frequencies (env_four_cpus topology_001_denied) = ∅
  /\ _linux_get_per_cpu_max_frequencies (env_four_cpus topology_001_denied) = ∅.
Proof.
  split; [simpl; lia|]. split; [reflexivity|].
  apply (linux_per_cpu_freq_unreadable_topology _ 3%nat); [simpl; lia|reflexivity].
Defined.

Lemma linux_per_cpu_usage_bounds_witness :
  Forall (fun x => 0 <= x <= 100) (env_cpu_percent (env_four_cpus topology_0011))
  /\ 0 <= mean [60; 80] <= 100.
Proof.
  assert (Hf : Forall (fun x => 0 <= x <= 100) (env_cpu_percent (env_four_cpus topology_0011))).
  { repeat constructor; vm_compute; discriminate. }
  split; [exact Hf|].
  apply (linux_per_cpu_usage_bounds 0 100 (env_four_cpus topology_0011) 1%Z);
    [exact Hf|vm_compute; reflexivity].
Defined.

Lemma linux_per_cpu_max_frequencies_positive_witness :
  _linux_get_per_cpu_max_frequencies (env_four_cpus topology_0011) !! 1%Z = Some (py_max [2800; 3600])
  /\ 0 < py_max [2800; 3600].
Proof.
  assert (H : _linux_get_per_cpu_max_frequencies (env_four_cpus topology_0011) !! 1%Z
              = Some (py_max [2800; 3600])) by (vm_compute; reflexivity).
  split; [exact H|]. exact (linux_per_cpu_max_frequencies_positive _ _ _ H).
Defined.

Lemma linux_cpu_percentage_package_mean_witness :
  topology_readable (env_topology (env_four_cpus topology_0011))
    (length (env_cpu_percent (env_four_cpus topology_0011)))
  /\ CpuPercentage_as_numeric Linux 1 (env_four_cpus topology_0011) hist_init
     = (Ok (Fin (mean [60; 80])), store_value hist_init (mean [60; 80])).
Proof.
  split; [apply topology_0011_readable|].
  rewrite (linux_cpu_percentage_package_mean 1 (env_four_cpus topology_0011) hist_init)
    by apply topology_0011_readable.
  reflexivity.
Defined.

(** ** The LibreHardwareMonitor helpers *)

Lemma init_lhm_initialized sys imp g : _lhm_initialized (fst (_init_lhm sys imp g)) = true.
Proof. unfold _init_lhm. destruct (_lhm_initialized g) eqn:H; [exact H|]. destruct sys, imp; reflexivity. Qed.

Lemma run_init_lhm_latched sys imps g :
  _lhm_initialized g = true -> run_init_lhm sys imps g = (g, repeat None (length imps)).
Proof.
  intros Hg. induction imps as [|imp imps IH]; simpl; [reflexivity|].
  unfold _init_lhm at 1. rewrite Hg. rewrite IH. reflexivity.
Qed.

Theorem run_init_lhm_first_call_decides sys imp imps :
  run_init_lhm sys (imp :: imps) lhm_globals_init
  = (fst (_init_lhm sys imp lhm_globals_init),
     snd (_init_lhm sys imp lhm_globals_init) :: repeat None (length imps)).
Proof.
  simpl. destruct (_init_lhm sys imp lhm_globals_init) as [g1 ex] eqn:Hi.
  rewrite run_init_lhm_latched; [reflexivity|].
  change g1 with (fst (g1, ex)). rewrite <- Hi. apply init_lhm_initialized.
Qed.

Theorem get_cpus_lhm_no_binding_is_final sys imp imp' :
  (sys <> Windows \/ imp = ImportFailed \/ imp = ImportOtherException) ->
  _get_cpus_lhm_globals sys imp' (fst (_init_lhm sys imp lhm_globals_init))
  = (fst (_init_lhm sys imp lhm_globals_init), inl []).
Proof.
  intros H.
  assert (Hg : _lhm_handle (fst (_init_lhm sys imp lhm_globals_init)) = None).
  { destruct sys; [reflexivity| |reflexivity].
    destruct H as [H|[-> | ->]]; [congruence|reflexivity|reflexivity]. }
  unfold _get_cpus_lhm_globals.
  unfold _init_lhm at 1. rewrite init_lhm_initialized, Hg. reflexivity.
Qed.

Theorem get_cpu_by_index_lhm_spec sys imp g idx :
  (snd (_get_cpu_by_index_lhm sys imp g idx) = inr InitOtherException
   <-> snd (_init_lhm sys imp g) = Some InitOtherException)
  /\ (snd (_init_lhm sys imp g) = None ->
      (snd (_get_cpu_by_index_lhm sys imp g idx) = inl None
       <-> (length (match _lhm_handle (fst (_init_lhm sys imp g)) with
                    | Some hws => List.filter is_cpu_hardware hws
                    | None => []
                    end) <= idx)%nat))
  /\ (forall hw, snd (_get_cpu_by_index_lhm sys imp g idx) = inl (Some hw) ->
      exists hws, _lhm_handle (fst (_init_lhm sys imp g)) = Some hws
                  /\ In hw hws /\ HardwareType hw = HwCpu).
Proof.
  unfold _get_cpu_by_index_lhm, _get_cpus_lhm_globals.
  destruct (_init_lhm sys imp g) as [g' ex]. destruct ex as [x|]; [destruct x|]; simpl.
  - split; [split; intros; reflexivity|]. split; [intros H; discriminate H|]. intros hw H; discriminate H.
  - split; [split; intros H; [|discriminate H]; destruct (_lhm_handle g'); discriminate H|]. split.
    + intros _. destruct (_lhm_handle g') as [hws|]; simpl.
      * split; [intros H; apply lookup_ge_None; congruence|].
        intros H; apply lookup_ge_None in H; congruence.
      * split; [intros _; lia|]. intros _. reflexivity.
    + intros hw Hhw. destruct (_lhm_handle g') as [hws|]; simpl in Hhw; [|discriminate].
      injection Hhw as Hhw.
      apply list_elem_of_lookup_2 in Hhw. apply list_elem_of_In in Hhw.
      apply filter_In in Hhw as [Hin Hc]. exists hws. split; [reflexivity|]. split; [exact Hin|].
      unfold is_cpu_hardware in Hc. destruct (HardwareType hw); congruence.
Qed.

Lemma get_cpu_by_index_lhm_spec_witness :
  snd (_init_lhm Windows (ImportOk [mk_hardware HwCpu []]) lhm_globals_init) = None
  /\ (snd (_get_cpu_by_index_lhm Windows (ImportOk [mk_hardware HwCpu []]) lhm_globals_init 1)
       = inl None
      <-> (length (match _lhm_handle (fst (_init_lhm Windows (ImportOk [mk_hardware HwCpu []])
                                             lhm_globals_init)) with
                   | Some hws => List.filter is_cpu_hardware hws
                   | None => []
                   end) <= 1)%nat).
Proof.
  split; [reflexivity|].
  apply (proj1 (proj2 (get_cpu_by_index_lhm_spec Windows (ImportOk [mk_hardware HwCpu []])
                         lhm_globals_init 1))).
  reflexivity.
Defined.

Lemma sensor_type_eqb_eq a b : sensor_type_eqb a b = true -> a = b.
Proof. destruct a, b; simpl; congruence. Qed.

Lemma sensor_matches_sound ty nc ns s :
  sensor_matches ty nc ns s = true ->
  SensorType s = ty /\ Value s <> None
  /\ (forall c, nc = Some c -> str_contains (Name s) c = true)
  /\ (forall p, ns = Some p -> str_startswith (Name s) p = true).
Proof.
  unfold sensor_matches.
  destruct (sensor_type_eqb (SensorType s) ty) eqn:Ht; simpl; [|discriminate].
  destruct (value_is_not_none s) eqn:Hv; simpl; [|discriminate].
  apply sensor_type_eqb_eq in Ht.
  assert (Hv' : Value s <> None) by (unfold value_is_not_none in Hv; destruct (Value s); congruence).
  destruct (opt_str_truthy nc && negb (str_contains (Name s) (default "" nc))) eqn:Hc;
    [discriminate|].
  destruct (opt_str_truthy ns && negb (str_startswith (Name s) (default "" ns))) eqn:Hp;
    [discriminate|].
  intros _. split; [exact Ht|]. split; [exact Hv'|]. split.
  - intros c ->. simpl in Hc. destruct (String.eqb c "") eqn:He.
    + apply String.eqb_eq in He as ->. unfold str_contains.
      destruct (Name s); reflexivity.
    + simpl in Hc. destruct (str_contains (Name s) c); [reflexivity|discriminate].
  - intros p ->. simpl in Hp. destruct (String.eqb p "") eqn:He.
    + apply String.eqb_eq in He as ->. unfold str_startswith.
      destruct (Name s); reflexivity.
    + simpl in Hp. destruct (str_startswith (Name s) p); [reflexivity|discriminate].
Qed.

Theorem find_sensor_lhm_sound hw ty nc ns s :
  _find_sensor_lhm hw ty nc ns = Some s ->
  exists h, hw = Some h /\ In s (Sensors h)
  /\ SensorType s = ty /\ Value s <> None
  /\ (forall c, nc = Some c -> str_contains (Name s) c = true)
  /\ (forall p, ns = Some p -> str_startswith (Name s) p = true)
  /\ exists l1 l2, Sensors h = l1 ++ s :: l2
     /\ Forall (fun s' => sensor_matches ty nc ns s' = false) l1.
Proof.
  destruct hw as [h|]; simpl; [|discriminate]. intros Hs.
  apply find_in_sensors_some in Hs as (l1 & l2 & Hl & Hm & Hf).
  exists h. split; [reflexivity|]. split; [rewrite Hl; apply in_or_app; right; left; reflexivity|].
  destruct (sensor_matches_sound _ _ _ _ Hm) as (H1 & H2 & H3 & H4).
  repeat (split; [assumption|]). exists l1, l2. split; assumption.
Qed.

Lemma sensor_matches_empty_filters ty nc ns s :
  sensor_matches ty (Some "") ns s = sensor_matches ty None ns s
  /\ sensor_matches ty nc (Some "") s = sensor_matches ty nc None s.
Proof. unfold sensor_matches. cbn [opt_str_truthy andb negb String.eqb Ascii.eqb]. split; reflexivity. Qed.

Theorem find_sensor_lhm_empty_filters hw ty nc ns :
  _find_sensor_lhm hw ty (Some "") ns = _find_sensor_lhm hw ty None ns
  /\ _find_sensor_lhm hw ty nc (Some "") = _find_sensor_lhm hw ty nc None.
Proof.
  destruct hw as [h|]; cbn [_find_sensor_lhm]; [|split; reflexivity].
  induction (Sensors h) as [|s l IH]; cbn [find_in_sensors]; [split; reflexivity|].
  destruct (sensor_matches_empty_filters ty nc ns s) as [-> ->].
  destruct IH as [-> ->]. split; reflexivity.
Qed.

Lemma get_cpus_lhm_no_binding_is_final_witness :
  (OtherOS <> Windows \/ ImportOk [] = ImportFailed \/ ImportOk [] = ImportOtherException)
  /\ _get_cpus_lhm_globals OtherOS (ImportOk [mk_hardware HwCpu []])
       (fst (_init_lhm OtherOS (ImportOk [mk_hardware HwCpu []]) lhm_globals_init))
     = (fst (_init_lhm OtherOS (ImportOk [mk_hardware HwCpu []]) lhm_globals_init), inl []).
Proof.
  split; [left; discriminate|].
  apply (get_cpus_lhm_no_binding_is_final OtherOS (ImportOk [mk_hardware HwCpu []])
           (ImportOk [mk_hardware HwCpu []])).
  left; discriminate.
Defined.

Lemma find_sensor_lhm_sound_witness :
  let h := mk_hardware HwCpu [mk_sensor Load "CPU Core #1" (Some 3); mk_sensor Load "CPU Total" (Some 12)] in
  _find_sensor_lhm (Some h) Load None (Some "CPU Total") = Some (mk_sensor Load "CPU Total" (Some 12))
  /\ SensorType (mk_sensor Load "CPU Total" (Some 12)) = Load.
Proof.
  cbv zeta.
  assert (H : _find_sensor_lhm (Some (mk_hardware HwCpu [mk_sensor Load "CPU Core #1" (Some 3);
                  mk_sensor Load "CPU Total" (Some 12)])) Load None (Some "CPU Total")
              = Some (mk_sensor Load "CPU Total" (Some 12))) by (vm_compute; reflexivity).
  split; [exact H|].
  destruct (find_sensor_lhm_sound _ _ _ _ _ H) as (h & _ & _ & Ht & _). exact Ht.
Defined.

(** ** Text widths *)

Lemma length_string_app (s1 s2 : string) :
  String.length (s1 ++ s2)%string = (String.length s1 + String.length s2)%nat.
Proof. induction s1 as [|c s1 IH]; simpl; [reflexivity|]. rewrite IH. reflexivity. Qed.

Lemma length_fill c n : String.length (fill c n) = n.
Proof. induction n as [|n IH]; simpl; [reflexivity|]. rewrite IH. reflexivity. Qed.

Lemma length_pad_left c w s : String.length (pad_left c w s) = Nat.max w (String.length s).
Proof. unfold pad_left. rewrite length_string_app, length_fill. lia. Qed.

Lemma digits_aux_len_le fuel n acc k :
  (1 <= k)%nat -> (0 <= n < 10 ^ Z.of_nat k)%Z ->
  (String.length (digits_aux fuel n acc) <= k + String.length acc)%nat.
Proof.
  revert n acc k. induction fuel as [|fuel IH]; intros n acc k Hk Hn; simpl; [lia|].
  destruct (n <? 10)%Z eqn:H10; [simpl; lia|].
  apply Z.ltb_ge in H10.
  destruct k as [|[|k]]; [lia| |].
  - simpl in Hn. lia.
  - specialize (IH (n / 10)%Z (String (Ascii.ascii_of_nat (48 + Z.to_nat (n mod 10))) acc) (S k)).
    simpl in IH. rewrite Nat2Z.inj_succ, Z.pow_succ_r in Hn by lia.
    assert (Hd : (0 <= n / 10 < 10 ^ Z.of_nat (S k))%Z).
    { split; [apply Z.div_pos; lia|]. apply Z.div_lt_upper_bound; lia. }
    specialize (IH ltac:(lia) Hd). lia.
Qed.

Lemma digits_aux_len_ge fuel n acc :
  (String.length acc <= String.length (digits_aux fuel n acc))%nat.
Proof.
  revert n acc. induction fuel as [|fuel IH]; intros n acc; simpl; [lia|].
  destruct (n <? 10)%Z; simpl; [lia|]. specialize (IH (n / 10)%Z (String (Ascii.ascii_of_nat (48 + Z.to_nat (n mod 10))) acc)).
  simpl in IH. lia.
Qed.

Lemma decimal_len n k :
  (1 <= k)%nat -> (0 <= n < 10 ^ Z.of_nat k)%Z ->
  (1 <= String.length (decimal n) <= k)%nat.
Proof.
  intros Hk Hn. unfold decimal. split.
  - simpl. destruct (n <? 10)%Z; simpl; [lia|].
    pose proof (digits_aux_len_ge (Z.to_nat (Z.log2 n)) (n / 10)%Z
                  (String (Ascii.ascii_of_nat (48 + Z.to_nat (n mod 10))) "")) as H.
    simpl in H. lia.
  - pose proof (digits_aux_len_le (S (Z.to_nat (Z.log2 n))) n "" k Hk Hn). simpl in *. lia.
Qed.

Lemma Qfloor_bounds q : inject_Z (Qfloor q) <= q /\ q < inject_Z (Qfloor q) + 1.
Proof.
  split; [apply Qfloor_le|]. pose proof (Qlt_floor q) as H.
  rewrite inject_Z_plus in H. exact H.
Qed.

Lemma round_half_even_nonneg q : 0 <= q -> (0 <= round_half_even q)%Z.
Proof.
  intros Hq. unfold round_half_even. destruct (Qfloor_bounds q) as [H1 H2].
  assert (Hf : (-1 < Qfloor q)%Z).
  { rewrite Zlt_Qlt. change (inject_Z (-1)) with (-(1)). lra. }
  destruct (Qcompare_spec (q - inject_Z (Qfloor q)) (1 # 2)); [destruct (Z.even _)| |]; lia.
Qed.

Lemma round_half_even_le q (m : Z) : q < inject_Z m + (1 # 2) -> (round_half_even q <= m)%Z.
Proof.
  intros Hq. unfold round_half_even. destruct (Qfloor_bounds q) as [H1 H2].
  destruct (Qcompare_spec (q - inject_Z (Qfloor q)) (1 # 2)) as [He|Hl|Hg].
  - assert (Hf : (Qfloor q < m)%Z) by (rewrite Zlt_Qlt; lra).
    destruct (Z.even _); lia.
  - assert (Hf : (Qfloor q < m + 1)%Z) by (rewrite Zlt_Qlt, inject_Z_plus; change (inject_Z 1) with 1; lra).
    lia.
  - assert (Hf : (Qfloor q < m)%Z) by (rewrite Zlt_Qlt; lra). lia.
Qed.

Lemma round_half_even_ge q (m : Z) : inject_Z m - (1 # 2) < q -> (m <= round_half_even q)%Z.
Proof.
  intros Hq. unfold round_half_even. destruct (Qfloor_bounds q) as [H1 H2].
  destruct (Qcompare_spec (q - inject_Z (Qfloor q)) (1 # 2)) as [He|Hl|Hg].
  - assert (Hf : (m - 1 < Qfloor q)%Z)
      by (rewrite Zlt_Qlt, <- Z.add_opp_r, inject_Z_plus, inject_Z_opp; change (inject_Z 1) with 1; lra).
    destruct (Z.even _); lia.
  - assert (Hf : (m - 1 < Qfloor q)%Z)
      by (rewrite Zlt_Qlt, <- Z.add_opp_r, inject_Z_plus, inject_Z_opp; change (inject_Z 1) with 1; lra). lia.
  - assert (Hf : (m - 2 < Qfloor q)%Z)
      by (rewrite Zlt_Qlt, <- Z.add_opp_r, inject_Z_plus, inject_Z_opp; change (inject_Z 2) with 2; lra). lia.
Qed.

Lemma round_half_even_ge_even q (m : Z) :
  Z.even m = true -> inject_Z m - (1 # 2) <= q -> (m <= round_half_even q)%Z.
Proof.
  intros Hm Hq. unfold round_half_even. destruct (Qfloor_bounds q) as [H1 H2].
  destruct (Qcompare_spec (q - inject_Z (Qfloor q)) (1 # 2)) as [He|Hl|Hg].
  - assert (Hf : (m - 1 <= Qfloor q)%Z)
      by (rewrite Zle_Qle, <- Z.add_opp_r, inject_Z_plus, inject_Z_opp;
          change (inject_Z 1) with 1; lra).
    destruct (Z.even (Qfloor q)) eqn:Hev; [|lia].
    assert (Hc : Qfloor q = (m - 1)%Z \/ (m <= Qfloor q)%Z) by lia.
    destruct Hc as [Hc|Hc]; [|lia].
    rewrite Hc, Z.even_sub, Hm in Hev. discriminate.
  - assert (Hf : (m - 1 < Qfloor q)%Z)
      by (rewrite Zlt_Qlt, <- Z.add_opp_r, inject_Z_plus, inject_Z_opp;
          change (inject_Z 1) with 1; lra). lia.
  - assert (Hf : (m - 2 < Qfloor q)%Z)
      by (rewrite Zlt_Qlt, <- Z.add_opp_r, inject_Z_plus, inject_Z_opp;
          change (inject_Z 2) with 2; lra). lia.
Qed.

Lemma format_fixed_length w p x :
  String.length (format_fixed w p x)
  = Nat.max w ((if Qle_bool 0 x then 0 else 1)
               + String.length (decimal (round_half_even (Qabs x * inject_Z (10 ^ Z.of_nat p))
                                         / 10 ^ Z.of_nat p))
               + match p with O => 0 | S _ => S p end)%nat.
Proof.
  unfold format_fixed. cbv zeta. rewrite length_pad_left, !length_string_app.
  destruct p as [|p].
  - destruct (Qle_bool 0 x); cbn [String.length]; lia.
  - match goal with |- context [decimal ?n] =>
      match n with (_ mod _)%Z =>
        assert (Hd : (1 <= String.length (decimal n) <= S p)%nat)
          by (apply decimal_len; [lia|apply Z.mod_pos_bound; lia])
      end
    end.
    rewrite length_string_app, length_pad_left. cbn [String.length].
    destruct (Qle_bool 0 x); cbn [String.length]; lia.
Qed.

Lemma int_part_len p x k :
  (1 <= k)%nat ->
  Qabs x * inject_Z (10 ^ Z.of_nat p) < inject_Z (10 ^ Z.of_nat (k + p)) - (1 # 2) ->
  (1 <= String.length (decimal (round_half_even (Qabs x * inject_Z (10 ^ Z.of_nat p))
                                 / 10 ^ Z.of_nat p)) <= k)%nat.
Proof.
  intros Hk Hx. apply decimal_len; [exact Hk|].
  assert (Hpos : (0 < 10 ^ Z.of_nat p)%Z) by (apply Z.pow_pos_nonneg; lia).
  assert (H0 : (0 <= round_half_even (Qabs x * inject_Z (10 ^ Z.of_nat p)))%Z).
  { apply round_half_even_nonneg. apply Qmult_le_0_compat; [apply Qabs_nonneg|].
    change 0 with (inject_Z 0). rewrite <- Zle_Qle. lia. }
  assert (H1 : (round_half_even (Qabs x * inject_Z (10 ^ Z.of_nat p))
                <= 10 ^ Z.of_nat (k + p) - 1)%Z).
  { apply round_half_even_le. rewrite <- Z.add_opp_r, inject_Z_plus, inject_Z_opp.
    change (inject_Z 1) with 1. lra. }
  split; [apply Z.div_pos; lia|]. apply Z.div_lt_upper_bound; [exact Hpos|].
  rewrite <- Z.pow_add_r by lia. rewrite Nat2Z.inj_add in H1.
  rewrite (Z.add_comm (Z.of_nat p)). lia.
Qed.

Lemma format_fixed_length_nonneg w p x k :
  0 <= x -> (1 <= k)%nat ->
  x * inject_Z (10 ^ Z.of_nat p) < inject_Z (10 ^ Z.of_nat (k + p)) - (1 # 2) ->
  (Nat.max w (1 + match p with O => 0 | S _ => S p end)
   <= String.length (format_fixed w p x)
   <= Nat.max w (k + match p with O => 0 | S _ => S p end))%nat.
Proof.
  intros Hx Hk Hb. rewrite format_fixed_length.
  assert (Hs : Qle_bool 0 x = true) by (apply Qle_bool_iff; exact Hx).
  rewrite Hs.
  assert (Ha : Qabs x == x) by (apply Qabs_pos; exact Hx).
  pose proof (int_part_len p x k Hk ltac:(rewrite Ha; exact Hb)). lia.
Qed.

Lemma format_fixed_length_neg w p x k :
  x < 0 -> (1 <= k)%nat ->
  - x * inject_Z (10 ^ Z.of_nat p) < inject_Z (10 ^ Z.of_nat (k + p)) - (1 # 2) ->
  (String.length (format_fixed w p x)
   <= Nat.max w (1 + k + match p with O => 0 | S _ => S p end))%nat.
Proof.
  intros Hx Hk Hb. rewrite format_fixed_length.
  assert (Hs : Qle_bool 0 x = false).
  { destruct (Qle_bool 0 x) eqn:H; [|reflexivity]. apply Qle_bool_iff in H. lra. }
  rewrite Hs.
  assert (Ha : Qabs x == - x) by (apply Qabs_neg; lra).
  pose proof (int_part_len p x k Hk ltac:(rewrite Ha; exact Hb)). lia.
Qed.

Theorem disk_speed_text_width st :
  (-99.95 < value (d_hist st) < 999.95) \/ (1000 <= value (d_hist st) < 1023948.8) ->
  String.length (DiskSpeed_as_string st) = 10%nat.
Proof.
  intros H. unfold DiskSpeed_as_string. cbv zeta.
  destruct (Qle_bool 1000 (value (d_hist st))) eqn:Hb;
    rewrite length_string_app; cbn [String.length].
  - apply Qle_bool_iff in Hb. destruct H as [H|H]; [lra|].
    pose proof (format_fixed_length_nonneg 5 1 (value (d_hist st) / 1024) 3) as Hl.
    change (inject_Z (10 ^ Z.of_nat 1)) with 10 in Hl.
    change (inject_Z (10 ^ Z.of_nat (3 + 1))) with 10000 in Hl.
    assert (H0 : 0 <= value (d_hist st) / 1024)
      by (unfold Qdiv; change (/ 1024) with (1 # 1024); lra).
    assert (H1 : value (d_hist st) / 1024 * 10 < 10000 - (1 # 2))
      by (unfold Qdiv; change (/ 1024) with (1 # 1024); lra).
    specialize (Hl H0 ltac:(lia) H1). simpl in Hl. lia.
  - assert (Hv : value (d_hist st) < 1000).
    { apply Qnot_le_lt. intros Hle. apply Qle_bool_iff in Hle. congruence. }
    destruct H as [H|H]; [|lra].
    destruct (Qlt_le_dec (value (d_hist st)) 0) as [Hn|Hp].
    + pose proof (format_fixed_length_neg 5 1 (value (d_hist st)) 2 Hn) as Hl.
      change (inject_Z (10 ^ Z.of_nat 1)) with 10 in Hl.
      change (inject_Z (10 ^ Z.of_nat (2 + 1))) with 1000 in Hl.
      specialize (Hl ltac:(lia) ltac:(lra)). simpl in Hl.
      pose proof (format_fixed_length 5 1 (value (d_hist st))). simpl in *. lia.
    + pose proof (format_fixed_length_nonneg 5 1 (value (d_hist st)) 3 Hp) as Hl.
      change (inject_Z (10 ^ Z.of_nat 1)) with 10 in Hl.
      change (inject_Z (10 ^ Z.of_nat (3 + 1))) with 10000 in Hl.
      specialize (Hl ltac:(lia) ltac:(lra)). simpl in Hl. lia.
Qed.

Theorem disk_speed_text_1000_MB st :
  999.95 <= value (d_hist st) < 1000 -> DiskSpeed_as_string st = "1000.0 MB/s"%string.
Proof.
  intros [H1 H2]. unfold DiskSpeed_as_string, format_fixed. cbv zeta.
  assert (Hb : Qle_bool 1000 (value (d_hist st)) = false).
  { destruct (Qle_bool 1000 _) eqn:Hb; [apply Qle_bool_iff in Hb; lra|reflexivity]. }
  assert (Hs : Qle_bool 0 (value (d_hist st)) = true) by (apply Qle_bool_iff; lra).
  assert (Hn : round_half_even (Qabs (value (d_hist st)) * inject_Z (10 ^ Z.of_nat 1)) = 10000%Z).
  { assert (Ha : Qabs (value (d_hist st)) == value (d_hist st)) by (apply Qabs_pos; lra).
    change (inject_Z (10 ^ Z.of_nat 1)) with 10.
    apply Z.le_antisymm.
    - apply round_half_even_le. change (inject_Z 10000) with 10000. rewrite Ha. lra.
    - apply round_half_even_ge_even; [reflexivity|]. change (inject_Z 10000) with 10000.
      rewrite Ha. lra. }
  rewrite Hb, Hs, Hn. reflexivity.
Qed.

Theorem memory_clock_text_width st :
  0 < m_value st < 9999.5 -> String.length (MemoryClockSpeed_as_string st) = 8%nat.
Proof.
  intros H. unfold MemoryClockSpeed_as_string.
  destruct (Qlt_le_dec 0 (m_value st)) as [Hp|Hp]; [|lra].
  rewrite length_string_app. cbn [String.length].
  pose proof (format_fixed_length_nonneg 4 0 (m_value st) 4 ltac:(lra)) as Hl.
  change (inject_Z (10 ^ Z.of_nat 0)) with 1 in Hl.
  change (inject_Z (10 ^ Z.of_nat (4 + 0))) with 10000 in Hl.
  specialize (Hl ltac:(lia) ltac:(lra)). simpl in Hl. lia.
Qed.

Lemma ghz_text_length w st :
  0 <= value st < 9995 -> String.length (format_fixed w 2 (value st / 1000)) = Nat.max w 4.
Proof.
  intros H.
  pose proof (format_fixed_length_nonneg w 2 (value st / 1000) 1) as Hl.
  change (inject_Z (10 ^ Z.of_nat 2)) with 100 in Hl.
  change (inject_Z (10 ^ Z.of_nat (1 + 2))) with 1000 in Hl.
  specialize (Hl ltac:(unfold Qdiv; change (/ 1000) with (1 # 1000); lra) ltac:(lia)
                 ltac:(unfold Qdiv; change (/ 1000) with (1 # 1000); lra)).
  simpl in Hl. lia.
Qed.

Theorem frequency_text_width st :
  0 <= value (f_hist st) < 9995 ->
  (max_freq st <= 0 -> String.length (CpuFrequency_as_string st) = 8%nat)
  /\ (0 < max_freq st < 9995 -> String.length (CpuFrequency_as_string st) = 13%nat).
Proof.
  intros Hv. unfold CpuFrequency_as_string. cbv zeta. split; intros Hm.
  - destruct (Qlt_le_dec 0 (max_freq st)) as [Hp|Hp]; [lra|].
    rewrite length_string_app, (ghz_text_length 4 (f_hist st) Hv). reflexivity.
  - destruct (Qlt_le_dec 0 (max_freq st)) as [Hp|Hp]; [|lra].
    rewrite !length_string_app, (ghz_text_length 0 (f_hist st) Hv).
    pose proof (ghz_text_length 0 (mk_hist (max_freq st) []) ltac:(simpl; lra)) as Hmax.
    cbn [value] in Hmax. rewrite Hmax. reflexivity.
Qed.

Lemma disk_speed_text_width_witness :
  ((-99.95 < value (d_hist (mk_dstate (mk_hist 512 nan_history) None None)) < 999.95)
   \/ (1000 <= value (d_hist (mk_dstate (mk_hist 512 nan_history) None None)) < 1023948.8))
  /\ String.length (DiskSpeed_as_string (mk_dstate (mk_hist 512 nan_history) None None)) = 10%nat.
Proof.
  assert (H : (-99.95 < value (d_hist (mk_dstate (mk_hist 512 nan_history) None None)) < 999.95)
   \/ (1000 <= value (d_hist (mk_dstate (mk_hist 512 nan_history) None None)) < 1023948.8))
    by (left; simpl; lra).
  split; [exact H|]. exact (disk_speed_text_width _ H).
Defined.

Lemma disk_speed_text_1000_MB_witness :
  999.95 <= value (d_hist (mk_dstate (mk_hist 999.97 nan_history) None None)) < 1000
  /\ DiskSpeed_as_string (mk_dstate (mk_hist 999.97 nan_history) None None) = "1000.0 MB/s"%string.
Proof.
  assert (H : 999.95 <= value (d_hist (mk_dstate (mk_hist 999.97 nan_history) None None)) < 1000)
    by (simpl; lra).
  split; [exact H|]. exact (disk_speed_text_1000_MB _ H).
Defined.

Lemma memory_clock_text_width_witness :
  0 < m_value (mk_mem 3200 true) < 9999.5
  /\ String.length (MemoryClockSpeed_as_string (mk_mem 3200 true)) = 8%nat.
Proof.
  assert (H : 0 < m_value (mk_mem 3200 true) < 9999.5) by (simpl; lra).
  split; [exact H|]. exact (memory_clock_text_width _ H).
Defined.

Lemma frequency_text_width_witness :
  0 <= value (f_hist (mk_freq (mk_hist 2400 nan_history) 3600 true)) < 9995
  /\ String.length (CpuFrequency_as_string (mk_freq (mk_hist 2400 nan_history) 3600 true)) = 13%nat.
Proof.
  assert (H : 0 <= value (f_hist (mk_freq (mk_hist 2400 nan_history) 3600 true)) < 9995)
    by (simpl; lra).
  split; [exact H|]. apply (proj2 (frequency_text_width _ H)). simpl; lra.
Defined.

(** ** CPU temperatures on Linux *)

Lemma dict_empty_true t : dict_empty t = true <-> t = ∅.
Proof.
  unfold dict_empty. rewrite <- map_to_list_empty_iff.
  destruct (map_to_list t); split; congruence.
Qed.

Lemma dict_empty_lookup t z v : t !! z = Some v -> dict_empty t = false.
Proof.
  intros H. destruct (dict_empty t) eqn:He; [|reflexivity].
  apply dict_empty_true in He. subst. rewrite lookup_empty in H. discriminate.
Qed.

Lemma amd_fallback_nonempty sensor_temps keys t :
  dict_empty t = false -> amd_fallback sensor_temps keys t = t.
Proof.
  intros He. unfold amd_fallback. induction keys as [|k keys IH]; simpl; [reflexivity|].
  destruct (assoc_get k sensor_temps); [rewrite He|]; exact IH.
Qed.

Lemma enumerate_into_lookup i l t z :
  enumerate_into i l t !! z
  = if (Z.of_nat i <=? z)%Z && (z <? Z.of_nat (i + length l))%Z
    then temp_current <$> l !! (Z.to_nat z - i)%nat
    else t !! z.
Proof.
  revert i t. induction l as [|x l IH]; intros i t; simpl.
  - destruct ((Z.of_nat i <=? z)%Z && (z <? Z.of_nat (i + 0))%Z) eqn:H; [|reflexivity].
    apply andb_true_iff in H as [H1 H2]. apply Z.leb_le in H1. apply Z.ltb_lt in H2. lia.
  - rewrite IH.
    destruct (Z.eq_dec z (Z.of_nat i)) as [->|Hne].
    + replace ((Z.of_nat (S i) <=? Z.of_nat i)%Z) with false by (symmetry; apply Z.leb_gt; lia).
      replace ((Z.of_nat i <=? Z.of_nat i)%Z && (Z.of_nat i <? Z.of_nat (i + S (length l)))%Z)
        with true by (symmetry; apply andb_true_iff; split; [apply Z.leb_le|apply Z.ltb_lt]; lia).
      simpl. rewrite lookup_insert_eq. rewrite Nat2Z.id, Nat.sub_diag. reflexivity.
    + rewrite lookup_insert_ne by congruence.
      destruct (Z.of_nat i <=? z)%Z eqn:H1; simpl.
      * apply Z.leb_le in H1.
        replace ((Z.of_nat (S i) <=? z)%Z) with true by (symmetry; apply Z.leb_le; lia). simpl.
        replace (Z.of_nat (S (i + length l))) with (Z.of_nat (i + S (length l))) by lia.
        destruct (z <? Z.of_nat (i + S (length l)))%Z; [|reflexivity].
        replace (Z.to_nat z - i)%nat with (S (Z.to_nat z - S i)) by lia. reflexivity.
      * apply Z.leb_gt in H1.
        replace ((Z.of_nat (S i) <=? z)%Z) with false by (symmetry; apply Z.leb_gt; lia).
        reflexivity.
Qed.

Theorem linux_cpu_temperatures_amd_positional e sensor_temps l :
  env_temps e = Some sensor_temps ->
  assoc_get "coretemp" sensor_temps = None ->
  assoc_get "k10temp" sensor_temps = Some l -> l <> [] ->
  forall z, _linux_get_cpu_temperatures e !! z
            = if (z <? 0)%Z then None else temp_current <$> l !! Z.to_nat z.
Proof.
  intros He Hc Hk Hl z. unfold _linux_get_cpu_temperatures. rewrite He, Hc. cbv zeta.
  unfold amd_fallback. simpl. rewrite Hk.
  assert (Hne : dict_empty (enumerate_into 0 l ∅) = false).
  { destruct l as [|x l]; [congruence|].
    apply (dict_empty_lookup _ 0%Z (temp_current x)).
    rewrite enumerate_into_lookup. reflexivity. }
  change (dict_empty ∅) with true. cbv iota.
  destruct (assoc_get "zenpower" sensor_temps); [rewrite Hne|]; cbn [fold_left].
  all: rewrite enumerate_into_lookup, lookup_empty.
  all: destruct (z <? 0)%Z eqn:Hz; [apply Z.ltb_lt in Hz|apply Z.ltb_ge in Hz].
  all: try (replace ((Z.of_nat 0 <=? z)%Z) with false by (symmetry; apply Z.leb_gt; lia);
            reflexivity).
  all: replace ((Z.of_nat 0 <=? z)%Z) with true by (symmetry; apply Z.leb_le; lia); simpl.
  all: rewrite Nat.sub_0_r.
  all: destruct (z <? Z.of_nat (length l))%Z eqn:Hlen;
         [reflexivity|apply Z.ltb_ge in Hlen].
  all: symmetry; apply fmap_None, lookup_ge_None; lia.
Qed.

Definition has_package_id (z : Z) (entry : temp_entry) : bool :=
  match coretemp_package_id entry with Some n => Z.eqb n z | None => false end.

Lemma last_cons_some {A} (x : A) l :
  last (x :: l) = Some (default x (last l)).
Proof.
  revert x. induction l as [|y l IH]; intros x; [reflexivity|].
  change (last (x :: y :: l)) with (last (y :: l)). rewrite (IH y). reflexivity.
Qed.

Lemma coretemp_packages_lookup l t z :
  coretemp_packages l t !! z
  = match last (List.filter (has_package_id z) l) with
    | Some entry => Some (temp_current entry)
    | None => t !! z
    end.
Proof.
  revert t. induction l as [|x l IH]; intros t; [reflexivity|].
  unfold coretemp_packages in *. cbn [fold_left List.filter]. rewrite IH.
  change (has_package_id z x)
    with (match coretemp_package_id x with Some n => Z.eqb n z | None => false end).
  destruct (coretemp_package_id x) as [n|] eqn:Hx.
  - destruct (Z.eqb_spec n z) as [->|Hne].
    + rewrite last_cons_some, lookup_insert_eq.
      destruct (last (List.filter (has_package_id z) l)); reflexivity.
    + rewrite lookup_insert_ne by exact Hne. reflexivity.
  - reflexivity.
Qed.

Lemma coretemp_packages_none l t :
  (forall entry, In entry l -> coretemp_package_id entry = None) -> coretemp_packages l t = t.
Proof.
  revert t. induction l as [|x l IH]; intros t H; [reflexivity|].
  unfold coretemp_packages in *. cbn [fold_left].
  rewrite (H x (or_introl eq_refl)). apply IH. intros y Hy. apply H. right. exact Hy.
Qed.

Lemma core_fallback_set l t v :
  t !! 0%Z = Some v -> coretemp_core_fallback l t = t.
Proof.
  revert t. induction l as [|x l IH]; intros t H; [reflexivity|].
  unfold coretemp_core_fallback in *. cbn [fold_left].
  destruct (str_startswith (temp_label x) "Core"); [rewrite H|]; apply IH; exact H.
Qed.

Lemma core_fallback_first l entry :
  List.find (fun x => str_startswith (temp_label x) "Core") l = Some entry ->
  coretemp_core_fallback l ∅ = <[0%Z := temp_current entry]> ∅.
Proof.
  induction l as [|x l IH]; intros H; [discriminate|].
  simpl in H. unfold coretemp_core_fallback in *. cbn [fold_left].
  destruct (str_startswith (temp_label x) "Core").
  - injection H as <-. rewrite lookup_empty.
    exact (core_fallback_set l _ (temp_current x) (lookup_insert_eq _ _ _)).
  - exact (IH H).
Qed.

Theorem linux_cpu_temperatures_coretemp_packages e sensor_temps l entry n :
  env_temps e = Some sensor_temps ->
  assoc_get "coretemp" sensor_temps = Some l ->
  In entry l -> coretemp_package_id entry = Some n ->
  forall z, _linux_get_cpu_temperatures e !! z
            = temp_current <$> last (List.filter (has_package_id z) l).
Proof.
  intros He Hc Hin Hn z. unfold _linux_get_cpu_temperatures. rewrite He, Hc. cbv zeta.
  assert (Hne : dict_empty (coretemp_packages l ∅) = false).
  { destruct (last (List.filter (has_package_id n) l)) as [x|] eqn:Hl.
    - apply (dict_empty_lookup _ n (temp_current x)).
      rewrite coretemp_packages_lookup, Hl. reflexivity.
    - exfalso. assert (Hf : In entry (List.filter (has_package_id n) l)).
      { apply filter_In. split; [exact Hin|]. unfold has_package_id. rewrite Hn.
        apply Z.eqb_refl. }
      destruct (List.filter (has_package_id n) l) as [|y r] eqn:Hr; [destruct Hf|].
      rewrite last_cons_some in Hl. discriminate. }
  rewrite Hne, amd_fallback_nonempty by exact Hne.
  rewrite coretemp_packages_lookup, lookup_empty.
  destruct (last _); reflexivity.
Qed.

Theorem linux_cpu_temperatures_core_fallback e sensor_temps l entry :
  env_temps e = Some sensor_temps ->
  assoc_get "coretemp" sensor_temps = Some l ->
  (forall x, In x l -> coretemp_package_id x = None) ->
  List.find (fun x => str_startswith (temp_label x) "Core") l = Some entry ->
  _linux_get_cpu_temperatures e = <[0%Z := temp_current entry]> ∅.
Proof.
  intros He Hc Hnone Hf. unfold _linux_get_cpu_temperatures. rewrite He, Hc. cbv zeta.
  rewrite coretemp_packages_none by exact Hnone.
  change (dict_empty ∅) with true. cbv iota.
  rewrite (core_fallback_first l entry Hf).
  apply amd_fallback_nonempty.
  apply (dict_empty_lookup _ 0%Z (temp_current entry)). apply lookup_insert_eq.
Qed.

(** A single-socket AMD machine: [k10temp] reports [Tctl] and [Tccd1]. *)
Definition env_amd_k10temp : env :=
  mk_env [] [] (fun _ => TopoNotFound) (fun _ _ => None) ∅ 0%Z None
    (Some [("k10temp", [mk_temp "Tctl" 70; mk_temp "Tccd1" 65])]) None 0 None false ImportFailed.

(** An Intel machine with two packages, and [k10temp] data that is ignored. *)
Definition env_intel_two_packages : env :=
  mk_env [] [] (fun _ => TopoNotFound) (fun _ _ => None) ∅ 0%Z None
    (Some [("coretemp", [mk_temp "Package id 0" 55; mk_temp "Core 0" 50;
                         mk_temp "Package id 1" 60]);
           ("k10temp", [mk_temp "Tctl" 70])]) None 0 None false ImportFailed.

(** coretemp without package entries: only per-core entries. *)
Definition env_intel_cores_only : env :=
  mk_env [] [] (fun _ => TopoNotFound) (fun _ _ => None) ∅ 0%Z None
    (Some [("coretemp", [mk_temp "Core 0" 50; mk_temp "Core 1" 52]);
           ("k10temp", [mk_temp "Tctl" 70])]) None 0 None false ImportFailed.

Lemma linux_cpu_temperatures_amd_positional_witness :
  _linux_get_cpu_temperatures env_amd_k10temp !! 1%Z = Some 65.
Proof.
  rewrite (linux_cpu_temperatures_amd_positional env_amd_k10temp _
             [mk_temp "Tctl" 70; mk_temp "Tccd1" 65] eq_refl eq_refl eq_refl
             ltac:(discriminate) 1%Z).
  reflexivity.
Defined.

Lemma linux_cpu_temperatures_coretemp_packages_witness :
  _linux_get_cpu_temperatures env_intel_two_packages !! 1%Z = Some 60.
Proof.
  rewrite (linux_cpu_temperatures_coretemp_packages env_intel_two_packages _
             [mk_temp "Package id 0" 55; mk_temp "Core 0" 50; mk_temp "Package id 1" 60]
             (mk_temp "Package id 0" 55) 0%Z eq_refl eq_refl (or_introl eq_refl)
             ltac:(vm_compute; reflexivity) 1%Z).
  vm_compute. reflexivity.
Defined.

Lemma linux_cpu_temperatures_core_fallback_witness :
  _linux_get_cpu_temperatures env_intel_cores_only = <[0%Z := 50]> ∅.
Proof.
  apply (linux_cpu_temperatures_core_fallback env_intel_cores_only _
           [mk_temp "Core 0" 50; mk_temp "Core 1" 52] (mk_temp "Core 0" 50) eq_refl eq_refl).
  - intros x Hx. destruct Hx as [<-|[<-|[]]]; vm_compute; reflexivity.
  - vm_compute. reflexivity.
Defined.

(** ** Memory clock on Linux *)

Lemma dmidecode_speeds_pos lines l :
  dmidecode_speeds lines = Some l -> Forall (fun v => (0 < v)%Z) l.
Proof.
  revert l. induction lines as [|line r IH]; intros l H; cbn [dmidecode_speeds] in H.
  - injection H as <-. constructor.
  - destruct (_ || _); [|exact (IH l H)].
    destruct (nth_error (split_char ":" (strip line)) 1); [|discriminate].
    destruct (split_ws _) as [|v vs]; [discriminate|].
    destruct (dmidecode_speeds r) as [rest|] eqn:Hr; [|discriminate].
    simpl in H. injection H as <-. apply Forall_app. split; [|exact (IH rest eq_refl)].
    destruct (str_isdigit v && (0 <? digits_value v)%Z) eqn:Hv; [|constructor].
    apply andb_true_iff in Hv as [_ Hv]. apply Z.ltb_lt in Hv. repeat constructor. exact Hv.
Qed.

Lemma fold_max_ge r x : (x <= fold_left Z.max r x)%Z.
Proof.
  revert x. induction r as [|y r IH]; intros x; simpl; [lia|].
  specialize (IH (Z.max x y)). lia.
Qed.

Lemma dmidecode_method_pos out v : dmidecode_method out = Some v -> (0 < v)%Z.
Proof.
  unfold dmidecode_method. destruct out as [o|]; [|discriminate].
  destruct (dmidecode_speeds (splitlines o)) as [[|s ss]|] eqn:Hs; try discriminate.
  intros [= <-]. apply dmidecode_speeds_pos in Hs. inversion Hs; subst.
  simpl. pose proof (fold_max_ge ss s). lia.
Qed.

Lemma decode_dimms_method_gt out v : decode_dimms_method out = Some v -> (100 < v)%Z.
Proof.
  unfold decode_dimms_method. destruct out as [o|]; [|discriminate].
  induction (splitlines o) as [|line r IH]; simpl; [discriminate|].
  destruct (str_contains line "Maximum module speed"); [|exact IH].
  destruct (List.find _ (split_ws line)) as [p|] eqn:Hf; [|exact IH].
  intros [= <-]. apply find_some in Hf as [_ Hp].
  apply andb_true_iff in Hp as [_ Hp]. apply Z.ltb_lt in Hp. exact Hp.
Qed.

Theorem linux_memory_clock_first_method cmds :
  (forall v, dmidecode_method (dmidecode_out cmds) = Some v ->
     _linux_get_memory_clock cmds = v /\ (0 < v)%Z)
  /\ (forall v, dmidecode_method (dmidecode_out cmds) = None ->
     dmidecode_method (sudo_dmidecode_out cmds) = Some v ->
     _linux_get_memory_clock cmds = v /\ (0 < v)%Z)
  /\ (forall v, dmidecode_method (dmidecode_out cmds) = None ->
     dmidecode_method (sudo_dmidecode_out cmds) = None ->
     decode_dimms_method (decode_dimms_out cmds) = Some v ->
     _linux_get_memory_clock cmds = v /\ (100 < v)%Z)
  /\ (_linux_get_memory_clock cmds = 0%Z <->
      dmidecode_method (dmidecode_out cmds) = None
      /\ dmidecode_method (sudo_dmidecode_out cmds) = None
      /\ decode_dimms_method (decode_dimms_out cmds) = None).
Proof.
  unfold _linux_get_memory_clock.
  split; [|split; [|split]].
  - intros v H1. rewrite H1. split; [reflexivity|exact (dmidecode_method_pos _ _ H1)].
  - intros v H1 H2. rewrite H1, H2. split; [reflexivity|exact (dmidecode_method_pos _ _ H2)].
  - intros v H1 H2 H3. rewrite H1, H2, H3. split; [reflexivity|exact (decode_dimms_method_gt _ _ H3)].
  - destruct (dmidecode_method (dmidecode_out cmds)) as [v|] eqn:H1.
    { pose proof (dmidecode_method_pos _ _ H1). split; [lia|intros [Hn _]; discriminate Hn]. }
    destruct (dmidecode_method (sudo_dmidecode_out cmds)) as [v|] eqn:H2.
    { pose proof (dmidecode_method_pos _ _ H2). split; [lia|intros [_ [Hn _]]; discriminate Hn]. }
    destruct (decode_dimms_method (decode_dimms_out cmds)) as [v|] eqn:H3.
    { pose proof (decode_dimms_method_gt _ _ H3). split; [lia|intros [_ [_ Hn]]; discriminate Hn]. }
    tauto.
Qed.

Lemma linux_memory_clock_first_method_witness :
  dmidecode_method (dmidecode_out mem_commands_sudo_only) = None
  /\ dmidecode_method (sudo_dmidecode_out mem_commands_sudo_only) = Some 3200%Z
  /\ _linux_get_memory_clock mem_commands_sudo_only = 3200%Z /\ (0 < 3200)%Z.
Proof.
  assert (H1 : dmidecode_method (dmidecode_out mem_commands_sudo_only) = None) by reflexivity.
  assert (H2 : dmidecode_method (sudo_dmidecode_out mem_commands_sudo_only) = Some 3200%Z)
    by (vm_compute; reflexivity).
  split; [exact H1|]. split; [exact H2|].
  apply (proj1 (proj2 (linux_memory_clock_first_method mem_commands_sudo_only)) 3200%Z H1 H2).
Defined.

Lemma dmidecode_speeds_bad_line lines line :
  In line lines -> strip line = "Configured Memory Speed:"%string ->
  dmidecode_speeds lines = None.
Proof.
  induction lines as [|l0 r IH]; intros Hin Hs; [destruct Hin|].
  destruct Hin as [<-|Hin].
  - cbn [dmidecode_speeds]. rewrite Hs. reflexivity.
  - cbn [dmidecode_speeds]. rewrite (IH Hin Hs).
    destruct (_ || _); [|reflexivity].
    destruct (nth_error (split_char ":" (strip l0)) 1); [|reflexivity].
    destruct (split_ws _); reflexivity.
Qed.

Theorem dmidecode_empty_value_discards o line :
  In line (splitlines o) -> strip line = "Configured Memory Speed:"%string ->
  dmidecode_method (Some o) = None.
Proof.
  intros Hin Hs. unfold dmidecode_method.
  rewrite (dmidecode_speeds_bad_line _ _ Hin Hs). reflexivity.
Qed.

(** dmidecode output of two modules, one of them with an empty
    [Configured Memory Speed:] line, and a decode-dimms output. *)
Definition dmidecode_two_modules_one_empty : string :=
  "Configured Memory Speed: 3200 MT/s" ++ String (ascii_of_nat 10)
    ("Configured Memory Speed:" ++ String (ascii_of_nat 10) "").

Lemma dmidecode_empty_value_discards_witness :
  In "Configured Memory Speed:"%string (splitlines dmidecode_two_modules_one_empty)
  /\ dmidecode_method (Some dmidecode_two_modules_one_empty) = None.
Proof.
  assert (Hin : In "Configured Memory Speed:"%string (splitlines dmidecode_two_modules_one_empty))
    by (vm_compute; right; left; reflexivity).
  split; [exact Hin|].
  apply (dmidecode_empty_value_discards _ _ Hin). vm_compute. reflexivity.
Defined.

(** ** Fan speeds *)

Lemma assoc_get_fans_last k (entries : list fan_entry) :
  assoc_get k (map (fun f => (fan_label f, fan_current f)) entries)
  = fan_current <$> last (List.filter (fun f => String.eqb k (fan_label f)) entries).
Proof.
  induction entries as [|f r IH]; [reflexivity|].
  cbn [map assoc_get List.filter]. rewrite IH.
  destruct (String.eqb k (fan_label f)) eqn:Hk.
  - rewrite last_cons_some. destruct (last _); reflexivity.
  - destruct (last _); reflexivity.
Qed.

Theorem linux_fan_speed_last_label label e st fans entries :
  env_fans e = Some fans -> assoc_get "nct6779" fans = Some entries ->
  let v := match last (List.filter (fun f => String.eqb label (fan_label f)) entries) with
           | Some f => fan_current f
           | None => 0
           end in
  FanSpeed_as_numeric label Linux e st = (Fin v, store_value st v).
Proof.
  intros He Hn. cbv zeta. unfold FanSpeed_as_numeric, _linux_get_fan_speeds.
  rewrite He, Hn, assoc_get_fans_last. destruct (last _); reflexivity.
Qed.

(** The nct6779 chip reports [fan1] twice. *)
Definition env_fan1_twice : env :=
  mk_env [] [] (fun _ => TopoNotFound) (fun _ _ => None) ∅ 0%Z
    (Some [("nct6779", [mk_fan "fan1" 900; mk_fan "fan2" 1100; mk_fan "fan1" 1500])])
    None None 0 None false ImportFailed.

Lemma linux_fan_speed_last_label_witness :
  Cpu0FanSpeed_as_numeric Linux env_fan1_twice hist_init
  = (Fin 1500, store_value hist_init 1500).
Proof.
  exact (linux_fan_speed_last_label "fan1" env_fan1_twice hist_init _
           [mk_fan "fan1" 900; mk_fan "fan2" 1100; mk_fan "fan1" 1500] eq_refl eq_refl).
Defined.

(** ** ExampleCustomNumericData *)

Theorem example_as_string_needs_as_numeric last_val :
  ExampleCustomNumericData_as_string example_new = Exc AttributeError
  /\ (let '(_, inst, _) := ExampleCustomNumericData_as_numeric example_new last_val in
      ExampleCustomNumericData_as_string inst = Ok " 75.8%"%string).
Proof. split; reflexivity. Qed.
